(** * ECLIA embeddings sidecar: model-lifecycle verification

    A shallow embedding of [apps/memory/sidecar/server.py]: the Hugging Face
    cache helpers ([_hf_cache_dir], [_model_cache_path], [_is_model_cached]),
    the process-wide registry ([_model], [_DIM]) and the request handlers
    ([embed], [model_status], [model_download], [model_delete]).

    Modelling decisions, stated once:
    - a Python [str] is a [string]; every character is read as a code point
      below 256;
    - a [pathlib.Path] is its [parts] tuple (POSIX flavour);
    - the disk is a tree of directories and files, looked up by path;
    - an exception is the text [str(e)] that the handlers report;
    - [SentenceTransformer(name)] is an arbitrary, possibly failing, possibly
      disk-changing external call, and [shutil.rmtree] may fail at the
      environment's discretion. *)

From stdpp Require Import gmap strings list fin_maps.
From Stdlib Require Import ZArith Ascii SpecFloat.

Set Warnings "-register-all".
Open Scope Z_scope.

(** ** Python strings *)

Module Str.

(** Truthiness of a [str]: non-empty. *)
Definition truthy (s : string) : bool :=
  match s with EmptyString => false | String _ _ => true end.

(** [str.isspace] on one character (code points below 256). *)
Definition isspace (c : ascii) : bool :=
  match c with
  | "009" | "010" | "011" | "012" | "013"
  | "028" | "029" | "030" | "031" | " " | "133" | "160" => true
  | _ => false
  end%char.

Fixpoint lstrip (s : string) : string :=
  match s with
  | EmptyString => EmptyString
  | String c s' => if isspace c then lstrip s' else s
  end.

Fixpoint rstrip (s : string) : string :=
  match s with
  | EmptyString => EmptyString
  | String c s' =>
      match rstrip s' with
      | EmptyString => if isspace c then EmptyString else String c EmptyString
      | r => String c r
      end
  end.

(** [s.strip()] *)
Definition strip (s : string) : string := rstrip (lstrip s).

(** [c in s] for a single character [c]. *)
Fixpoint contains (c : ascii) (s : string) : bool :=
  match s with
  | EmptyString => false
  | String d s' => if Ascii.eqb d c then true else contains c s'
  end.

(** [s.replace(c, by)] for a single character [c]. *)
Fixpoint replace (c : ascii) (by_ : string) (s : string) : string :=
  match s with
  | EmptyString => EmptyString
  | String d s' =>
      if Ascii.eqb d c then by_ +:+ replace c by_ s'
      else String d (replace c by_ s')
  end.

(** [s.split(c)] for a single character [c]; never the empty list. *)
Fixpoint split (c : ascii) (s : string) : list string :=
  match s with
  | EmptyString => [EmptyString]
  | String d s' =>
      if Ascii.eqb d c then EmptyString :: split c s'
      else match split c s' with
           | h :: t => String d h :: t
           | [] => [String d EmptyString]
           end
  end.

(** [sep.join(l)] *)
Fixpoint join (sep : string) (l : list string) : string :=
  match l with
  | [] => EmptyString
  | [x] => x
  | x :: l' => x +:+ sep +:+ join sep l'
  end.

End Str.

(** ** pathlib (POSIX flavour) *)

(** A path is its [parts] tuple: [Path("/a/b").parts = ("/", "a", "b")],
    [Path("a/b").parts = ("a", "b")], [Path("").parts = ()]. *)
Definition Path := list string.

Module PurePath.

(** The root of a path string: two leading slashes are kept, one or three
    and more collapse to one. *)
Definition root (s : string) : string :=
  match s with
  | String c0 s1 =>
      if Ascii.eqb c0 "/" then
        match s1 with
        | String c1 s2 =>
            if Ascii.eqb c1 "/" then
              match s2 with
              | String c2 _ => if Ascii.eqb c2 "/" then "/" else "//"
              | EmptyString => "//"
              end
            else "/"
        | EmptyString => "/"
        end
      else ""
  | EmptyString => ""
  end.

Definition is_component (x : string) : bool :=
  negb (String.eqb x "") && negb (String.eqb x ".").

(** The components after the root: empty ones and [.] are dropped. *)
Definition rel_parts (s : string) : list string :=
  List.filter is_component (Str.split "/" s).

(** [Path(s)] *)
Definition of_str (s : string) : Path :=
  if Str.truthy (root s) then root s :: rel_parts s else rel_parts s.

(** [p / s] for a string operand: an absolute operand replaces [p]. *)
Definition truediv (p : Path) (s : string) : Path :=
  if Str.truthy (root s) then of_str s else p ++ rel_parts s.

Definition is_root (x : string) : bool :=
  String.eqb x "/" || String.eqb x "//".

(** [str(p)] *)
Definition to_str (p : Path) : string :=
  match p with
  | [] => "."
  | r :: rest => if is_root r then r +:+ Str.join "/" rest else Str.join "/" p
  end.

(** A component of a parsed path: not empty, not [.], free of slashes. *)
Definition component (x : string) : Prop :=
  is_component x = true ∧ Str.contains "/" x = false.

(** The [parts] tuples that [Path(...)] can produce. *)
Definition wf (p : Path) : Prop :=
  match p with
  | [] => True
  | r :: rest => (is_root r = true ∨ component r) ∧ Forall component rest
  end.

End PurePath.

Notation "p // s" := (PurePath.truediv p s) (at level 40, left associativity).

(** ** Process environment *)

(** [os.environ] and the directory [Path.home()] resolves to. *)
Record Env := {
  environ : gmap string string;
  home : string;
}.

(** ** The disk *)

(** A directory maps entry names to nodes; the top node holds the roots
    (["/"], ["//"]) and, for relative paths, the entries of the working
    directory. *)
Inductive node :=
  | File
  | Dir (entries : gmap string node).

(** The node a path names. Components are looked up by name: the tree has no
    symbolic links and [..] is not an entry of it, so the lookup speaks for
    the operating system on paths free of [..]. *)
Fixpoint lookup_path (n : node) (p : Path) : option node :=
  match p with
  | [] => Some n
  | x :: p' =>
      match n with
      | Dir m => match m !! x with Some c => lookup_path c p' | None => None end
      | File => None
      end
  end.

(** Whether the disk holds a directory at [p]: what [p.is_dir()] answers
    when the operating system answers the query. The call that may raise is
    [Posix.is_dir] below. *)
Definition is_dir (d : node) (p : Path) : bool :=
  match lookup_path d p with Some (Dir _) => true | _ => false end.

(** The children of the directory at [p]: what [p.iterdir()] yields when the
    listing succeeds. The source only lists behind [is_dir], so the value on
    a non-directory is never used. The call that may raise is
    [Posix.iterdir] below. *)
Definition iterdir (d : node) (p : Path) : list Path :=
  match lookup_path d p with
  | Some (Dir m) => (λ x, p ++ [x]) <$> elements (dom m)
  | _ => []
  end.

(** [any(...)] over [Path] objects, each of which is truthy. *)
Definition any_path (l : list Path) : bool := existsb (λ _, true) l.

(** The disk after [shutil.rmtree(p)] has run to completion. *)
Fixpoint remove_tree (n : node) (p : Path) : node :=
  match p, n with
  | [x], Dir m => Dir (delete x m)
  | x :: p', Dir m =>
      match m !! x with
      | Some c => Dir (<[x := remove_tree c p']> m)
      | None => n
      end
  | _, _ => n
  end.

(** ** Results of calls that may raise *)

Inductive outcome (A : Type) :=
  | Returns (a : A)
  | Raises (e : string).
Arguments Returns {A} a.
Arguments Raises {A} e.

(** ** The sentence-embedding library *)

(** A Python [float]: an IEEE 754 binary value. *)
Definition float : Type := spec_float.

(** A two-dimensional [numpy.ndarray]. *)
Record ndarray := {
  shape : nat * nat;
  tolist : list (list float);
  shape_rows : length tolist = shape.1;
  shape_cols : Forall (λ row, length row = shape.2) tolist;
}.

(** A loaded [SentenceTransformer] object. Its dimension getter is declared
    to return an optional integer. *)
Record Model := {
  get_sentence_embedding_dimension : option Z;
  encode : list string → bool → outcome ndarray;
}.

(** [int(x)] on an optional integer. *)
Definition int_ (x : option Z) : outcome Z :=
  match x with
  | Some z => Returns z
  | None =>
      Raises "int() argument must be a string, a bytes-like object or a real number, not 'NoneType'"
  end.

(** ** Request and response shapes *)

Record EmbedRequest := { texts : list string; normalize : bool }.
Record ModelActionRequest := { name : string }.

(** Response dictionaries, as the handlers build them. *)
Inductive value :=
  | VBool (b : bool)
  | VStr (s : string)
  | VInt (z : Z)
  | VVecs (l : list (list float)).

Definition dict := list (string * value).

Fixpoint get (d : dict) (k : string) : option value :=
  match d with
  | [] => None
  | (k', v) :: d' => if String.eqb k' k then Some v else get d' k
  end.

(** ** Process state and the handler monad *)

(** The module globals [_model] and [_DIM]. *)
Record Globals := { _model : option Model; _DIM : Z }.

Record World := { globals : Globals; disk : node }.

(** A computation reads and writes the world and returns or raises; what it
    wrote before raising stays written. *)
Definition M (A : Type) := World → outcome A * World.

Definition ret {A} (a : A) : M A := λ w, (Returns a, w).

Definition bind {A B} (c : M A) (k : A → M B) : M B :=
  λ w, match c w with
       | (Returns a, w') => k a w'
       | (Raises e, w') => (Raises e, w')
       end.

Definition lift {A} (o : outcome A) : M A := λ w, (o, w).

(** [try: body except Exception as e: handler(str(e))] *)
Definition try_except {A} (body : M A) (handler : string → M A) : M A :=
  λ w, match body w with
       | (Returns a, w') => (Returns a, w')
       | (Raises e, w') => handler e w'
       end.

Definition read_model : M (option Model) := λ w, (Returns (_model (globals w)), w).
Definition read_DIM : M Z := λ w, (Returns (_DIM (globals w)), w).
Definition read_disk : M node := λ w, (Returns (disk w), w).

Definition write_model (m : option Model) : M unit :=
  λ w, (Returns tt,
        {| globals := {| _model := m; _DIM := _DIM (globals w) |}; disk := disk w |}).

Definition write_DIM (d : Z) : M unit :=
  λ w, (Returns tt,
        {| globals := {| _model := _model (globals w); _DIM := d |}; disk := disk w |}).

(** An external call that acts on the disk only. *)
Definition on_disk {A} (f : node → outcome A * node) : M A :=
  λ w, let '(o, d') := f (disk w) in (o, {| globals := globals w; disk := d' |}).

(** The handlers are written with the usual [x ← c; k] and [c;; k]. *)
Global Instance M_ret : MRet M := @ret.
Global Instance M_bind : MBind M := λ A B k c, bind c k.

(** ** The embedded module, for a fixed process environment

    The handlers are given here on a file system that answers every
    [is_dir] and [iterdir] query; [Posix] below adds the refusals of the
    operating system to the functions that query the disk. *)

Section Server.

Variable env : Env.

(** [SentenceTransformer(name)]: fetches into the cache when needed and
    loads; any behaviour is allowed. *)
Variable SentenceTransformer : string → node → outcome Model * node.

(** When [shutil.rmtree(p)] fails on a disk: the error text and the disk it
    leaves behind. *)
Variable rmtree_fault : Path → node → option (string * node).

Definition _env_str (key default : string) : string :=
  match environ env !! key with
  | None => default
  | Some v => let s := Str.strip v in if Str.truthy s then s else default
  end.

Definition MODEL_NAME : string :=
  _env_str "ECLIA_EMBEDDINGS_MODEL" "all-MiniLM-L6-v2".

(** *** HuggingFace cache helpers *)

(** [Path.home()] *)
Definition Path_home : Path := PurePath.of_str (home env).

(** [os.environ.get(key)] when the value is truthy. *)
Definition environ_truthy (key : string) : option string :=
  match environ env !! key with
  | Some v => if Str.truthy v then Some v else None
  | None => None
  end.

Definition _hf_cache_dir : Path :=
  match environ_truthy "HF_HUB_CACHE" with
  | Some v => PurePath.of_str v
  | None =>
      let hf_home :=
        default (PurePath.to_str (Path_home // ".cache" // "huggingface"))
                (environ env !! "HF_HOME") in
      PurePath.of_str hf_home // "hub"
  end.

Definition _model_cache_path (model_name : string) : Path :=
  let safe := "models--" +:+ Str.replace "/" "--" model_name in
  _hf_cache_dir // safe.

Definition _check (d : node) (name : string) : bool :=
  let snapshots := _model_cache_path name // "snapshots" in
  is_dir d snapshots && any_path (iterdir d snapshots).

Definition _is_model_cached (d : node) (model_name : string) : bool :=
  if _check d model_name then true
  else if negb (Str.contains "/" model_name)
       then _check d ("sentence-transformers/" +:+ model_name)
       else false.

(** *** Startup *)

(** The module-level load; an exception here is not caught. *)
Definition startup : M unit :=
  d ← read_disk;
  if _is_model_cached d MODEL_NAME then
    m ← on_disk (SentenceTransformer MODEL_NAME);
    write_model (Some m);;
    dim ← lift (int_ (get_sentence_embedding_dimension m));
    write_DIM dim
  else ret tt.

(** *** /embed *)

Definition embed (req : EmbedRequest) : M dict :=
  model ← read_model;
  match model with
  | None =>
      ret [("ok", VBool false); ("model", VStr MODEL_NAME); ("dim", VInt 0);
           ("embeddings", VVecs [])]
  | Some model =>
      let texts := texts req in
      match texts with
      | [] =>
          dim ← read_DIM;
          ret [("ok", VBool true); ("model", VStr MODEL_NAME); ("dim", VInt dim);
               ("embeddings", VVecs [])]
      | _ :: _ =>
          vecs ← lift (encode model texts (normalize req));
          ret [("ok", VBool true); ("model", VStr MODEL_NAME);
               ("dim", VInt (Z.of_nat (shape vecs).2));
               ("embeddings", VVecs (tolist vecs))]
      end
  end.

(** *** /model/status, /model/download, /model/delete *)

Definition model_status (name : string) : M dict :=
  let name := Str.strip name in
  d ← read_disk;
  let cached := _is_model_cached d name in
  ret [("ok", VBool true); ("model", VStr name); ("cached", VBool cached)].

Definition model_download (req : ModelActionRequest) : M dict :=
  let name := Str.strip (name req) in
  if negb (Str.truthy name) then
    ret [("ok", VBool false); ("error", VStr "name is required")]
  else
    try_except
      (m ← on_disk (SentenceTransformer name);
       (if String.eqb name MODEL_NAME then
          write_model (Some m);;
          dim ← lift (int_ (get_sentence_embedding_dimension m));
          write_DIM dim
        else ret tt);;
       dim ← lift (int_ (get_sentence_embedding_dimension m));
       ret [("ok", VBool true); ("model", VStr name); ("cached", VBool true);
            ("dim", VInt dim)])
      (λ e, ret [("ok", VBool false); ("model", VStr name); ("error", VStr e)]).

(** [shutil.rmtree(p)] *)
Definition shutil_rmtree (p : Path) : M unit :=
  on_disk (λ d, match rmtree_fault p d with
                | Some (e, d') => (Raises e, d')
                | None => (Returns tt, remove_tree d p)
                end).

Definition model_delete (req : ModelActionRequest) : M dict :=
  let name := Str.strip (name req) in
  if negb (Str.truthy name) then
    ret [("ok", VBool false); ("error", VStr "name is required")]
  else
    let cache_path := _model_cache_path name in
    try_except
      (d ← read_disk;
       (if is_dir d cache_path then shutil_rmtree cache_path else ret tt);;
       (if String.eqb name MODEL_NAME then
          write_model None;;
          write_DIM 0
        else ret tt);;
       ret [("ok", VBool true); ("model", VStr name); ("cached", VBool false)])
      (λ e, ret [("ok", VBool false); ("model", VStr name); ("error", VStr e)]).

End Server.

(** ** The file-system calls as they can fail

    [Path.is_dir] and [Path.iterdir] ask the operating system and pass its
    refusals on as exceptions ([OSError]: a name too long, a permission
    denied). These are the functions of the module that query the disk, with
    the calls that may raise. *)

Module Posix.

Section Calls.

Variable env : Env.

(** When [p.is_dir()] raises on a disk, and with which error text. *)
Variable stat_fault : Path → node → option string.

(** When listing the directory at [p] raises, and with which error text. *)
Variable scandir_fault : Path → node → option string.

Variable rmtree_fault : Path → node → option (string * node).

(** [p.is_dir()] *)
Definition is_dir (d : node) (p : Path) : outcome bool :=
  match stat_fault p d with
  | Some e => Raises e
  | None => Returns (is_dir d p)
  end.

(** [p.iterdir()], run to its end. Listing what is not a directory raises
    as well (the text stands for the operating system's, without the path);
    the source only lists behind [is_dir]. *)
Definition iterdir (d : node) (p : Path) : outcome (list Path) :=
  match scandir_fault p d with
  | Some e => Raises e
  | None =>
      match lookup_path d p with
      | Some (Dir m) => Returns ((λ x, p ++ [x]) <$> elements (dom m))
      | Some File => Raises "[Errno 20] Not a directory"
      | None => Raises "[Errno 2] No such file or directory"
      end
  end.

Definition _check (d : node) (name : string) : outcome bool :=
  let snapshots := _model_cache_path env name // "snapshots" in
  match is_dir d snapshots with
  | Raises e => Raises e
  | Returns false => Returns false
  | Returns true =>
      match iterdir d snapshots with
      | Raises e => Raises e
      | Returns entries => Returns (any_path entries)
      end
  end.

Definition _is_model_cached (d : node) (model_name : string) : outcome bool :=
  match _check d model_name with
  | Raises e => Raises e
  | Returns true => Returns true
  | Returns false =>
      if negb (Str.contains "/" model_name)
      then _check d ("sentence-transformers/" +:+ model_name)
      else Returns false
  end.

(** [/model/status]: nothing is caught. *)
Definition model_status (name : string) : M dict :=
  let name := Str.strip name in
  d ← read_disk;
  cached ← lift (_is_model_cached d name);
  ret [("ok", VBool true); ("model", VStr name); ("cached", VBool cached)].

(** [/model/delete]: the [is_dir] query sits inside the [try]. *)
Definition model_delete (req : ModelActionRequest) : M dict :=
  let name := Str.strip (name req) in
  if negb (Str.truthy name) then
    ret [("ok", VBool false); ("error", VStr "name is required")]
  else
    let cache_path := _model_cache_path env name in
    try_except
      (d ← read_disk;
       bind (lift (is_dir d cache_path)) (λ is_directory : bool,
         (if is_directory then shutil_rmtree rmtree_fault cache_path
          else ret tt);;
         (if String.eqb name (MODEL_NAME env) then
            write_model None;;
            write_DIM 0
          else ret tt);;
         ret [("ok", VBool true); ("model", VStr name);
              ("cached", VBool false)]))
      (λ e, ret [("ok", VBool false); ("model", VStr name); ("error", VStr e)]).

End Calls.

End Posix.

(** ** The specification's vocabulary *)


(** An absolute path in which every component is a plain name: the paths
    on which looking up by name and the operating system agree, on a disk
    without symbolic links. *)
Definition resolved (p : Path) : Prop :=
  ∃ rest, p = "/" :: rest ∧
          Forall (λ x, PurePath.component x ∧ x ≠ "..") rest.

(** "The status operation returns [ok=true] with the stripped name and the
    inspector's boolean." *)
Definition status_answers
    (env : Env) (stat_fault scandir_fault : Path → node → option string)
    (raw : string) (w : World) : Prop :=
  ∃ cached,
    Posix.model_status env stat_fault scandir_fault raw w =
    (Returns [("ok", VBool true); ("model", VStr (Str.strip raw));
              ("cached", VBool cached)], w).

(** The registry with no active model. *)
Definition Unloaded : Globals := {| _model := None; _DIM := 0 |}.


(** The cache root read as "the first of the explicit override, the hub-home
    override and the default location, joined with [hub]". *)
Definition spec_cache_root (env : Env) : Path :=
  let base :=
    match environ env !! "HF_HUB_CACHE" with
    | Some v => PurePath.of_str v
    | None =>
        match environ env !! "HF_HOME" with
        | Some h => PurePath.of_str h
        | None => Path_home env // ".cache" // "huggingface"
        end
    end in
  base // "hub".

(** The other reading of the same sentence: only the default location is
    joined with [hub]. *)
Definition spec_cache_root_default_joined (env : Env) : Path :=
  match environ env !! "HF_HUB_CACHE" with
  | Some v => PurePath.of_str v
  | None =>
      match environ env !! "HF_HOME" with
      | Some h => PurePath.of_str h
      | None => Path_home env // ".cache" // "huggingface" // "hub"
      end
  end.

(** "Embedding an empty sequence succeeds with no vectors." *)
Definition embed_empty_succeeds (env : Env) (nrm : bool) (w : World) : Prop :=
  ∃ r w', embed env {| texts := []; normalize := nrm |} w = (Returns r, w') ∧
          get r "ok" = Some (VBool true) ∧ get r "embeddings" = Some (VVecs []).

(** The answers of the model manager. *)
Definition name_required : dict :=
  [("ok", VBool false); ("error", VStr "name is required")].

Definition deleted (name : string) : dict :=
  [("ok", VBool true); ("model", VStr name); ("cached", VBool false)].

(** The registry after a delete of [name] that did not fail. *)
Definition after_delete (env : Env) (name : string) (g : Globals) : Globals :=
  if String.eqb name (MODEL_NAME env) then Unloaded else g.

(** ** Concrete environments, disks and collaborators *)

Module Examples.

Definition env_default : Env := {| environ := ∅; home := "/home/eclia" |}.

Definition env_hub_cache : Env :=
  {| environ := {[ "HF_HUB_CACHE" := "/data/hf" ]}; home := "/home/eclia" |}.

Definition env_hf_home : Env :=
  {| environ := {[ "HF_HOME" := "/srv/huggingface" ]}; home := "/home/eclia" |}.

Definition env_bge : Env :=
  {| environ := {[ "ECLIA_EMBEDDINGS_MODEL" := "BAAI/bge-m3" ]};
     home := "/home/eclia" |}.

Definition mkdir (l : list (string * node)) : node := Dir (list_to_map l).

Definition hub_with (models : list (string * node)) : node :=
  mkdir [("/", mkdir [("home", mkdir [("eclia", mkdir [(".cache",
    mkdir [("huggingface", mkdir [("hub", mkdir models)])])])])])].

Definition snapshot_tree : node :=
  mkdir [("snapshots", mkdir [("c9745ed1", mkdir [("config.json", File)])])].

(** The default model as the library caches it: under the provider prefix. *)
Definition disk_short_name : node :=
  hub_with [("models--sentence-transformers--all-MiniLM-L6-v2", snapshot_tree)].

(** Another short-named model, cached the same way. *)
Definition disk_mpnet : node :=
  hub_with [("models--sentence-transformers--all-mpnet-base-v2", snapshot_tree)].

(** A provider-qualified model in the cache. *)
Definition disk_bge : node :=
  hub_with [("models--BAAI--bge-m3", snapshot_tree)].

Definition empty_hub : node := hub_with [].

Definition float_one : float := S754_finite false 4503599627370496 (-52).
Definition float_zero : float := S754_zero false.

Definition vecs_1x2 : ndarray :=
  {| shape := (1%nat, 2%nat);
     tolist := [[float_one; float_zero]];
     shape_rows := eq_refl;
     shape_cols := List.Forall_cons _ [float_one; float_zero] [] eq_refl (List.Forall_nil _) |}.

Definition minilm : Model :=
  {| get_sentence_embedding_dimension := Some 384;
     encode := λ _ _, Returns vecs_1x2 |}.

Definition bge : Model :=
  {| get_sentence_embedding_dimension := Some 1024;
     encode := λ _ _, Raises "CUDA out of memory" |}.

Definition no_dimension : Model :=
  {| get_sentence_embedding_dimension := None;
     encode := λ _ _, Raises "no pooling module" |}.

Definition load_bge : string → node → outcome Model * node :=
  λ _ d, (Returns bge, d).

Definition load_no_dimension : string → node → outcome Model * node :=
  λ _ d, (Returns no_dimension, d).


Definition no_fault : Path → node → option (string * node) := λ _ _, None.

Definition permission_denied : Path → node → option (string * node) :=
  λ _ d, Some ("[Errno 13] Permission denied", d).

Definition loaded (d : node) : World :=
  {| globals := {| _model := Some minilm; _DIM := 384 |}; disk := d |}.

Definition unloaded (d : node) : World := {| globals := Unloaded; disk := d |}.

End Examples.
(** ** Python [int] on text *)

Module PyInt.

(** The whitespace [int] skips around the number: the ASCII blanks, and the
    two blanks above 127. *)
Definition is_space (c : ascii) : bool :=
  match c with
  | "009" | "010" | "011" | "012" | "013" | " " | "133" | "160" => true
  | _ => false
  end%char.

Fixpoint lskip (s : string) : string :=
  match s with
  | EmptyString => EmptyString
  | String c s' => if is_space c then lskip s' else s
  end.

Fixpoint rskip (s : string) : string :=
  match s with
  | EmptyString => EmptyString
  | String c s' =>
      match rskip s' with
      | EmptyString => if is_space c then EmptyString else String c EmptyString
      | r => String c r
      end
  end.

Definition is_digit (c : ascii) : bool :=
  (48 <=? nat_of_ascii c)%nat && (nat_of_ascii c <=? 57)%nat.

Definition digit_value (c : ascii) : Z := Z.of_nat (nat_of_ascii c) - 48.

(** Decimal digits with single underscores between them; the value and the
    number of digits read. [after_digit] tells whether the previous character
    was a digit. *)
Fixpoint digits (s : string) (acc : Z) (n : nat) (after_digit : bool)
    : option (Z * nat) :=
  match s with
  | EmptyString => if after_digit then Some (acc, n) else None
  | String c s' =>
      if is_digit c then digits s' (10 * acc + digit_value c) (S n) true
      else if Ascii.eqb c "_" then
        if after_digit then digits s' acc n false else None
      else None
  end.

(** An optional sign in front of the digits. *)
Definition split_sign (s : string) : bool * string :=
  match s with
  | String "+"%char r => (false, r)
  | String "-"%char r => (true, r)
  | _ => (false, s)
  end.

(** [int(s)] in base 10; [None] stands for [ValueError]. [max_str_digits] is
    [sys.get_int_max_str_digits()], where 0 switches the limit off. *)
Definition parse (max_str_digits : nat) (s : string) : option Z :=
  let '(negative, body) := split_sign (rskip (lskip s)) in
  match digits body 0 0%nat false with
  | Some (v, n) =>
      if (0 <? max_str_digits)%nat && (max_str_digits <? n)%nat then None
      else Some (if negative then - v else v)
  | None => None
  end.

(** A character that no accepted text contains: neither digit, blank,
    underscore nor sign. *)
Definition foreign (c : ascii) : Prop :=
  is_digit c = false ∧ is_space c = false ∧
  c ≠ "_"%char ∧ c ≠ "+"%char ∧ c ≠ "-"%char.

(** The decimal text of a list of digit values, most significant first. *)
Definition digit_char (d : nat) : ascii := ascii_of_nat (48 + d).

Fixpoint text_of_digits (ds : list nat) : string :=
  match ds with
  | [] => EmptyString
  | d :: ds' => String (digit_char d) (text_of_digits ds')
  end.

Definition value_of_digits (ds : list nat) : Z :=
  fold_left (λ acc d, 10 * acc + Z.of_nat d) ds 0.

End PyInt.

(** ** The rest of the module: configuration, health, routing *)

Section Service.

Variable env : Env.
Variable SentenceTransformer : string → node → outcome Model * node.
Variable rmtree_fault : Path → node → option (string * node).

(** [sys.get_int_max_str_digits()] of the interpreter. *)
Variable int_max_str_digits : nat.

Definition _env_int (key : string) (default : Z) : Z :=
  match environ env !! key with
  | None => default
  | Some v =>
      match PyInt.parse int_max_str_digits (Str.strip v) with
      | Some n => n
      | None => default
      end
  end.

(** The two settings read under [__main__]. *)
Definition host : string := _env_str env "ECLIA_EMBEDDINGS_HOST" "127.0.0.1".
Definition port : Z := _env_int "ECLIA_EMBEDDINGS_PORT" 8789.

(** [/health]; [ts] is the clock reading [int(time.time() * 1000)]. *)
Definition health (ts : Z) : M dict :=
  dim ← read_DIM;
  model ← read_model;
  ret [("ok", VBool true); ("service", VStr "embeddings");
       ("model", VStr (MODEL_NAME env)); ("dim", VInt dim);
       ("model_loaded", VBool (bool_decide (model ≠ None)));
       ("ts", VInt ts)].

(** The routes of [app]. *)
Inductive request :=
  | GetHealth (ts : Z)
  | PostEmbed (req : EmbedRequest)
  | GetModelStatus (name : string)
  | PostModelDownload (req : ModelActionRequest)
  | PostModelDelete (req : ModelActionRequest).

Definition serve (q : request) : M dict :=
  match q with
  | GetHealth ts => health ts
  | PostEmbed req => embed env req
  | GetModelStatus name => model_status env name
  | PostModelDownload req => model_download env SentenceTransformer req
  | PostModelDelete req => model_delete env rmtree_fault req
  end.

(** The worlds a process can be in between two requests, when requests are
    served one after another: the module is imported on some disk (the
    globals start as [None] and [0]), requests are served, and the disk may
    change under the process at any time. *)
Inductive reachable : World → Prop :=
  | reach_startup d w :
      startup env SentenceTransformer {| globals := Unloaded; disk := d |} =
        (Returns tt, w) →
      reachable w
  | reach_serve q w : reachable w → reachable (serve q w).2
  | reach_disk w d :
      reachable w → reachable {| globals := globals w; disk := d |}.

End Service.

(** Two paths part ways: at some depth their components differ. *)
Fixpoint diverge (p q : Path) : bool :=
  match p, q with
  | x :: p', y :: q' => if String.eqb x y then diverge p' q' else true
  | _, _ => false
  end.

(** ** The image client: [skills/Stable-Diffusion/sd-t2i.py]

    The payload helpers of the text-to-image client. A template is a JSON
    object, held as a finite map (the order of its keys plays no part in
    what the helpers compute); the helpers update it in place, which is
    modelled by returning the updated object. *)

(** JSON values as [json.load] produces them. *)
Inductive json :=
  | JNull
  | JBool (b : bool)
  | JInt (z : Z)
  | JFloat (f : float)
  | JStr (s : string)
  | JList (l : list json)
  | JDict (m : gmap string json).

Module SdT2i.

(** Truthiness of a JSON value. *)
Definition truthy (v : json) : bool :=
  match v with
  | JNull => false
  | JBool b => b
  | JInt z => negb (z =? 0)
  | JFloat f => match f with S754_zero _ => false | _ => true end
  | JStr s => Str.truthy s
  | JList l => match l with [] => false | _ :: _ => true end
  | JDict m => match map_to_list m with [] => false | _ :: _ => true end
  end.

(** [isinstance(v, str)] *)
Definition is_str (v : json) : bool :=
  match v with JStr _ => true | _ => false end.

(** [s.rstrip(chars)] *)
Fixpoint rstrip_chars (chars : string) (s : string) : string :=
  match s with
  | EmptyString => EmptyString
  | String c s' =>
      match rstrip_chars chars s' with
      | EmptyString =>
          if Str.contains c chars then EmptyString else String c EmptyString
      | r => String c r
      end
  end.

(** The characters [" ,\t\r\n"]. *)
Definition separators : string :=
  String " " (String "," (String "009" (String "013" (String "010" ""))))%char.

Definition _strip_trailing_commas_spaces (s : string) : string :=
  rstrip_chars separators s.

(** The exceptions the helpers raise, with the argument they are built
    from. *)
Inductive exn :=
  | KeyError (arg : string)
  | TypeError (arg : string).

(** [repr] of a list of plain key names, as the f-string prints it. *)
Definition repr_keys (l : list string) : string :=
  "[" +:+ Str.join ", " ((λ k, "'" +:+ k +:+ "'") <$> l) +:+ "]".

Section Helpers.

(** [str(v)] of a JSON value that is not a string (its Python [repr]). *)
Variable repr : json → string.

(** [sys.get_int_max_str_digits()] of the interpreter. *)
Variable int_max_str_digits : nat.

(** [str(v)] *)
Definition str_ (v : json) : string :=
  match v with JStr s => s | _ => repr v end.

(** [str(tpl.get(key, "") or "")] *)
Definition text_at (tpl : gmap string json) (key : string) : string :=
  let v := default (JStr "") (tpl !! key) in
  str_ (if truthy v then v else JStr "").

(** The template's share of a prompt: the text under [key], stripped and
    without its trailing separators. *)
Definition cleaned (tpl : gmap string json) (key : string) : string :=
  _strip_trailing_commas_spaces (Str.strip (text_at tpl key)).

Definition merge_prompts (tpl : gmap string json)
    (user_prompt neg_extra : string) : gmap string json :=
  let tpl_prompt := _strip_trailing_commas_spaces (Str.strip (text_at tpl "prompt")) in
  let user_prompt := Str.strip user_prompt in
  let tpl :=
    <["prompt" :=
        JStr (if Str.truthy tpl_prompt && Str.truthy user_prompt
              then tpl_prompt +:+ ", " +:+ user_prompt
              else if Str.truthy tpl_prompt then tpl_prompt else user_prompt)]>
      tpl in
  let neg :=
    _strip_trailing_commas_spaces (Str.strip (text_at tpl "negative_prompt")) in
  let neg_extra := Str.strip neg_extra in
  if Str.truthy neg_extra then
    <["negative_prompt" :=
        JStr (if Str.truthy neg then neg +:+ ", " +:+ neg_extra else neg_extra)]>
      tpl
  else if Str.truthy neg then <["negative_prompt" := JStr neg]> tpl
  else delete "negative_prompt" tpl.

Definition hires_keys : list string :=
  ["hr_scale"; "hr_upscaler"; "hr_second_pass_steps"].

Definition modules_error : exn :=
  TypeError "Template key 'hr_additional_modules' must be a list of strings (or omitted).".

(** The template after the call, and the exception when one is raised. *)
Definition apply_upscale_toggle (tpl : gmap string json) (upscale : bool)
    : option exn * gmap string json :=
  if upscale then
    let missing :=
      List.filter (λ k, negb (bool_decide (is_Some (tpl !! k)))) hires_keys in
    match missing with
    | _ :: _ =>
        (Some (KeyError ("Template missing hires keys for --upscale: " +:+
                         repr_keys missing)), tpl)
    | [] =>
        let tpl := <["enable_hr" := JBool true]> tpl in
        match default JNull (tpl !! "hr_additional_modules") with
        | JNull =>
            (None, <["hr_additional_modules" := JList [JStr "Use same choices"]]> tpl)
        | JStr ham =>
            let s := Str.strip ham in
            (None,
             <["hr_additional_modules" :=
                 JList [JStr (if Str.truthy s then s else "Use same choices")]]>
               tpl)
        | JList ham =>
            if forallb is_str ham then (None, tpl)
            else (Some modules_error, tpl)
        | _ => (Some modules_error, tpl)
        end
    end
  else (None, <["enable_hr" := JBool false]> tpl).


End Helpers.

End SdT2i.

(** ** More runs of the service and of the client *)

Module Runs.

Import Examples.

Definition env_padded : Env :=
  {| environ := {[ "ECLIA_EMBEDDINGS_MODEL" := "  BAAI/bge-m3 ";
                   "ECLIA_EMBEDDINGS_PORT" := " 9000 " ]};
     home := "/home/eclia" |}.

Definition env_bad_port : Env :=
  {| environ := {[ "ECLIA_EMBEDDINGS_PORT" := "8789/tcp" ]};
     home := "/home/eclia" |}.

Definition load_minilm : string → node → outcome Model * node :=
  λ _ d, (Returns minilm, d).

(** Two models side by side in the cache. *)
Definition disk_two : node :=
  hub_with [("models--BAAI--bge-m3", snapshot_tree);
            ("models--sentence-transformers--all-MiniLM-L6-v2", snapshot_tree)].

(** A handle that encodes but reports no dimension. *)
Definition encoder_without_dimension : Model :=
  {| get_sentence_embedding_dimension := None;
     encode := λ _ _, Returns vecs_1x2 |}.

Definition load_encoder_without_dimension
    : string → node → outcome Model * node :=
  λ _ d, (Returns encoder_without_dimension, d).

(** The service of [env_bge] after import on [disk_two]. *)
Definition started : World :=
  {| globals := {| _model := Some bge; _DIM := 1024 |}; disk := disk_two |}.

(** [started] after a delete of the configured model. *)
Definition started_deleted : World :=
  {| globals := Unloaded;
     disk := remove_tree disk_two (_model_cache_path env_bge "BAAI/bge-m3") |}.

(** An operating system that answers every query. *)
Definition no_refusal : Path → node → option string := λ _ _, None.

(** A cache whose directories cannot be listed by the service's user. *)
Definition unreadable : Path → node → option string :=
  λ _ _, Some "[Errno 13] Permission denied".

(** The limit on the length of one path component: walking down [rest] from
    the directory at [seen], the first component of more than 255 characters
    is refused when the walk gets to it. *)
Fixpoint too_long_below (d : node) (seen rest : Path) : bool :=
  match rest with
  | [] => false
  | x :: rest' =>
      if (255 <? String.length x)%nat then is_dir d seen
      else too_long_below d (seen ++ [x]) rest'
  end.

Definition name_too_long : Path → node → option string :=
  λ p d,
    if too_long_below d [] p
    then Some "[Errno 36] File name too long" else None.

Fixpoint replicate (n : nat) (c : ascii) : string :=
  match n with
  | O => EmptyString
  | S n' => String c (replicate n' c)
  end.

(** A name of 300 characters, and one of 230: its own folder name fits in a
    path component, the prefixed one does not. *)
Definition name_300 : string := replicate 300 "a".
Definition name_230 : string := replicate 230 "a".

(** The [repr] of non-string JSON values does not matter in these runs. *)
Definition no_repr : json → string := λ _, "?".

Definition template : gmap string json :=
  {[ "prompt" := JStr "masterpiece, best quality, ";
     "negative_prompt" := JStr "lowres, ";
     "steps" := JInt 28;
     "hr_scale" := JFloat Examples.float_one;
     "hr_upscaler" := JStr "Latent";
     "hr_second_pass_steps" := JInt 10;
     "hr_additional_modules" := JStr "" ]}.

Definition template_no_hires : gmap string json :=
  {[ "prompt" := JStr "photo"; "steps" := JInt 20;
     "hr_scale" := JInt 2 ]}.

End Runs.

(** ** Facts about strings *)

Section StrFacts.


Lemma append_cons (c : ascii) (s t : string) :
  String c s +:+ t = String c (s +:+ t).
Proof. reflexivity. Qed.

Lemma append_nil (t : string) : "" +:+ t = t.
Proof. reflexivity. Qed.

Lemma contains_app c s t :
  Str.contains c (s +:+ t) = Str.contains c s || Str.contains c t.
Proof.
  induction s as [|d s IH]; [reflexivity|].
  rewrite append_cons. simpl. destruct (Ascii.eqb d c); [reflexivity|apply IH].
Qed.

Lemma replace_slash_free s : Str.contains "/" (Str.replace "/" "--" s) = false.
Proof.
  induction s as [|d s IH]; [reflexivity|].
  simpl. destruct (Ascii.eqb d "/") eqn:E.
  - rewrite contains_app, IH. reflexivity.
  - simpl. rewrite E. exact IH.
Qed.

Lemma split_slash_free c s : Str.contains c s = false → Str.split c s = [s].
Proof.
  induction s as [|d s IH]; [reflexivity|].
  simpl. destruct (Ascii.eqb d c); [discriminate|].
  intros H. rewrite (IH H). reflexivity.
Qed.

Lemma split_app c s t :
  Str.contains c s = false → Str.split c (s +:+ String c t) = s :: Str.split c t.
Proof.
  induction s as [|d s IH]; intros H.
  - rewrite append_nil. simpl. rewrite Ascii.eqb_refl. reflexivity.
  - rewrite append_cons. simpl in *. destruct (Ascii.eqb d c); [discriminate|].
    rewrite (IH H). reflexivity.
Qed.

Lemma split_parts_slash_free c s :
  Forall (λ x, Str.contains c x = false) (Str.split c s).
Proof.
  induction s as [|d s IH]; simpl.
  - repeat constructor.
  - destruct (Ascii.eqb d c) eqn:E.
    + constructor; [reflexivity|exact IH].
    + destruct (Str.split c s) as [|h t]; inversion IH; subst;
        constructor; simpl; rewrite ?E; auto.
Qed.

Lemma split_join l :
  l ≠ [] → Forall (λ x, Str.contains "/" x = false) l →
  Str.split "/" (Str.join "/" l) = l.
Proof.
  induction l as [|x l IH]; [done|].
  intros _ Hall. inversion Hall as [|? ? Hx Hl]; subst.
  destruct l as [|y l].
  - simpl. by apply split_slash_free.
  - change (Str.join "/" (x :: y :: l)) with (x +:+ String "/" (Str.join "/" (y :: l))).
    rewrite split_app by done. rewrite IH; done.
Qed.

End StrFacts.
(** ** Facts about paths *)

Module PathFacts.

Import PurePath.

Lemma root_cases s : root s = "" ∨ root s = "/" ∨ root s = "//".
Proof.
  destruct s as [|c0 [|c1 [|c2 s]]]; simpl;
    repeat match goal with |- context [Ascii.eqb ?a ?b] => destruct (Ascii.eqb a b) end;
    auto.
Qed.

Lemma rel_parts_components s : Forall component (rel_parts s).
Proof.
  unfold rel_parts.
  pose proof (split_parts_slash_free "/" s) as H.
  induction H as [|x l Hx _ IH]; simpl; [constructor|].
  destruct (is_component x) eqn:E; [constructor; [split; assumption|]|]; exact IH.
Qed.

Lemma of_str_wf s : wf (of_str s).
Proof.
  unfold of_str. pose proof (rel_parts_components s) as H.
  destruct (root_cases s) as [-> | [-> | ->]]; simpl.
  - destruct H; simpl; auto.
  - auto.
  - auto.
Qed.

Lemma truediv_rel p s : root s = "" → p // s = p ++ rel_parts s.
Proof. unfold truediv. intros ->. reflexivity. Qed.

Lemma truediv_wf p s : wf p → wf (p // s).
Proof.
  intros Hp. unfold truediv. destruct (Str.truthy (root s)); [apply of_str_wf|].
  pose proof (rel_parts_components s) as H.
  destruct p as [|r rest]; simpl.
  - destruct H; simpl; auto.
  - destruct Hp as [Hr Hrest]. split; [exact Hr|]. apply Forall_app; auto.
Qed.

Lemma filter_components l : Forall component l → List.filter is_component l = l.
Proof.
  induction 1 as [|x l [Hx _] _ IH]; simpl; [reflexivity|].
  rewrite Hx, IH. reflexivity.
Qed.

Lemma components_slash_free l :
  Forall component l → Forall (λ x, Str.contains "/" x = false) l.
Proof. induction 1 as [|x l [_ Hx] _ IH]; constructor; assumption. Qed.

Lemma rel_parts_join l : Forall component l → rel_parts (Str.join "/" l) = l.
Proof.
  intros H. unfold rel_parts. destruct l as [|x l]; [reflexivity|].
  rewrite split_join by (done || by apply components_slash_free).
  by apply filter_components.
Qed.

Lemma root_component x t : component x → root (x +:+ t) = "".
Proof.
  intros [H1 H2]. destruct x as [|c x]; [discriminate|].
  rewrite append_cons. simpl in *. destruct (Ascii.eqb c "/"); [discriminate|reflexivity].
Qed.

Lemma root_join l : Forall component l → root (Str.join "/" l) = "".
Proof.
  intros H. destruct H as [|x l Hx Hl]; [reflexivity|].
  destruct l as [|y l].
  - simpl. rewrite <- (root_component x "" Hx). f_equal.
    clear. induction x; simpl; [reflexivity|]. rewrite append_cons. by f_equal.
  - change (Str.join "/" (x :: y :: l)) with (x +:+ "/" +:+ Str.join "/" (y :: l)).
    by apply root_component.
Qed.

Lemma join_head_not_slash l c s :
  Forall component l → Str.join "/" l = String c s → c ≠ "/"%char.
Proof.
  intros H E Hc. subst c. pose proof (root_join l H) as R. rewrite E in R.
  simpl in R. destruct s as [|c1 [|c2 s]]; simpl in R;
    repeat match type of R with context [Ascii.eqb ?a ?b] => destruct (Ascii.eqb a b) end;
    discriminate.
Qed.

(** Parsing what [str] printed gives the path back. *)
Lemma of_str_to_str p : wf p → of_str (to_str p) = p.
Proof.
  destruct p as [|r rest]; [reflexivity|].
  intros [Hr Hrest]. unfold to_str.
  destruct (is_root r) eqn:Eroot.
  - assert (Hparts : ∀ j, rel_parts (String "/" j) = rel_parts j).
    { intros j. unfold rel_parts. reflexivity. }
    assert (Hj : rel_parts (Str.join "/" rest) = rest) by by apply rel_parts_join.
    unfold is_root in Eroot. apply orb_true_iff in Eroot.
    destruct Eroot as [E|E]; apply String.eqb_eq in E; subst r.
    + unfold of_str.
      assert (R : root ("/" +:+ Str.join "/" rest) = "/").
      { rewrite append_cons, append_nil.
        destruct (Str.join "/" rest) as [|c s] eqn:Ej; [reflexivity|].
        pose proof (join_head_not_slash rest c s Hrest Ej) as Hc.
        simpl. apply Ascii.eqb_neq in Hc. rewrite Hc. reflexivity. }
      rewrite R. simpl. rewrite append_cons, append_nil, Hparts, Hj. reflexivity.
    + unfold of_str.
      assert (R : root ("//" +:+ Str.join "/" rest) = "//").
      { rewrite !append_cons, append_nil.
        destruct (Str.join "/" rest) as [|c s] eqn:Ej; [reflexivity|].
        pose proof (join_head_not_slash rest c s Hrest Ej) as Hc.
        simpl. apply Ascii.eqb_neq in Hc. rewrite Hc. reflexivity. }
      rewrite R. simpl. rewrite !append_cons, append_nil, !Hparts, Hj. reflexivity.
  - destruct Hr as [Hr|Hr]; [congruence|].
    assert (Hall : Forall component (r :: rest)) by by constructor.
    unfold of_str. rewrite root_join by done. simpl Str.truthy. cbv iota.
    by apply rel_parts_join.
Qed.

End PathFacts.
(** ** The Cache Locator *)

Section Locator.

Import PurePath PathFacts.

Variable env : Env.

Lemma safe_name_component model_name :
  component ("models--" +:+ Str.replace "/" "--" model_name).
Proof.
  split; [reflexivity|].
  rewrite contains_app, replace_slash_free. reflexivity.
Qed.

Lemma truediv_component p x : component x → p // x = p ++ [x].
Proof.
  intros Hx. rewrite truediv_rel.
  - f_equal. change x with (Str.join "/" [x]) at 1.
    apply rel_parts_join. constructor; [exact Hx|constructor].
  - rewrite <- (root_join [x]); [reflexivity|constructor; [exact Hx|constructor]].
Qed.

Lemma _model_cache_path_parts model_name :
  _model_cache_path env model_name =
  _hf_cache_dir env ++ ["models--" +:+ Str.replace "/" "--" model_name].
Proof. apply truediv_component, safe_name_component. Qed.

Lemma _model_cache_path_nonempty model_name : _model_cache_path env model_name ≠ [].
Proof. rewrite _model_cache_path_parts. by destruct (_hf_cache_dir env). Qed.

Lemma hf_home_default_roundtrip :
  of_str (to_str (Path_home env // ".cache" // "huggingface")) =
  of_str (home env) ++ [".cache"; "huggingface"].
Proof.
  rewrite of_str_to_str by (do 2 apply truediv_wf; apply of_str_wf).
  unfold Path_home. rewrite !truediv_component by (split; reflexivity).
  by rewrite <- app_assoc.
Qed.

End Locator.

Section LocatorClaims.

Import PurePath PathFacts.

(** C8 (as amended). The cache folder of a model is a function of the
    identifier, of the two overrides and of the home directory alone. An
    explicit cache-directory override ([HF_HUB_CACHE], set and not empty) is
    the cache root as it stands, with no [hub] joined; otherwise the root is
    the hub-home override ([HF_HOME], when set) or else the default
    [~/.cache/huggingface], joined with [hub]. The folder name is the
    identifier with every [/] replaced by [--], behind the tag [models--]. *)
Theorem cache_locator_resolution (env : Env) :
  (∀ v, environ env !! "HF_HUB_CACHE" = Some v → v ≠ "" →
        _hf_cache_dir env = of_str v) ∧
  (∀ h, environ env !! "HF_HUB_CACHE" = None ∨
        environ env !! "HF_HUB_CACHE" = Some "" →
        environ env !! "HF_HOME" = Some h →
        _hf_cache_dir env = of_str h ++ ["hub"]) ∧
  (environ env !! "HF_HUB_CACHE" = None ∨
   environ env !! "HF_HUB_CACHE" = Some "" →
   environ env !! "HF_HOME" = None →
   _hf_cache_dir env = of_str (home env) ++ [".cache"; "huggingface"; "hub"]) ∧
  (∀ model_name,
     _model_cache_path env model_name =
     _hf_cache_dir env ++ ["models--" +:+ Str.replace "/" "--" model_name]) ∧
  (∀ env',
     environ env' !! "HF_HUB_CACHE" = environ env !! "HF_HUB_CACHE" →
     environ env' !! "HF_HOME" = environ env !! "HF_HOME" →
     home env' = home env →
     ∀ model_name,
       _model_cache_path env' model_name = _model_cache_path env model_name).
Proof.
  assert (Hhub : ∀ p, p // "hub" = p ++ ["hub"]).
  { intros p. apply truediv_component. split; reflexivity. }
  assert (Hoff : environ env !! "HF_HUB_CACHE" = None ∨
                 environ env !! "HF_HUB_CACHE" = Some "" →
                 environ_truthy env "HF_HUB_CACHE" = None).
  { unfold environ_truthy. intros [-> | ->]; reflexivity. }
  repeat split.
  - intros v Hv Hne. unfold _hf_cache_dir, environ_truthy. rewrite Hv.
    destruct v; [done|reflexivity].
  - intros h Hc Hh. unfold _hf_cache_dir. rewrite (Hoff Hc), Hh. apply Hhub.
  - intros Hc Hh. unfold _hf_cache_dir. rewrite (Hoff Hc), Hh. simpl default.
    rewrite Hhub, hf_home_default_roundtrip, <- app_assoc. reflexivity.
  - apply _model_cache_path_parts.
  - intros env' H1 H2 H3 model_name.
    unfold _model_cache_path, _hf_cache_dir, environ_truthy, Path_home.
    rewrite H1, H2, H3. reflexivity.
Qed.

Lemma cache_locator_resolution_witness :
  _hf_cache_dir Examples.env_hub_cache = ["/"; "data"; "hf"] ∧
  _hf_cache_dir Examples.env_hf_home = ["/"; "srv"; "huggingface"; "hub"] ∧
  _hf_cache_dir Examples.env_default =
    ["/"; "home"; "eclia"; ".cache"; "huggingface"; "hub"] ∧
  _model_cache_path Examples.env_hub_cache "BAAI/bge-m3" =
    ["/"; "data"; "hf"; "models--BAAI--bge-m3"].
Proof.
  split; [|split; [|split]].
  - apply (proj1 (cache_locator_resolution Examples.env_hub_cache) "/data/hf");
      [reflexivity|discriminate].
  - apply (proj1 (proj2 (cache_locator_resolution Examples.env_hf_home))
             "/srv/huggingface"); [left|]; reflexivity.
  - apply (proj1 (proj2 (proj2 (cache_locator_resolution Examples.env_default))));
      [left|]; reflexivity.
  - rewrite (proj1 (proj2 (proj2 (proj2
               (cache_locator_resolution Examples.env_hub_cache))))).
    reflexivity.
Defined.

(** C8, as worded: with the explicit override set, the code's cache root is
    the override itself, not the override joined with [hub]; and with the
    hub-home override set, the root is that directory joined with [hub], so
    joining [hub] onto the default location alone does not describe the code
    either. *)
Lemma cache_root_override_not_joined :
  _hf_cache_dir Examples.env_hub_cache = ["/"; "data"; "hf"] ∧
  spec_cache_root Examples.env_hub_cache = ["/"; "data"; "hf"; "hub"] ∧
  _hf_cache_dir Examples.env_hub_cache ≠ spec_cache_root Examples.env_hub_cache ∧
  _hf_cache_dir Examples.env_hf_home ≠
    spec_cache_root_default_joined Examples.env_hf_home.
Proof.
  split; [reflexivity|]. split; [reflexivity|].
  split; vm_compute; discriminate.
Qed.

End LocatorClaims.

(** ** Facts about the disk *)

Section DiskFacts.

Lemma lookup_path_app d p q :
  lookup_path d (p ++ q) = lookup_path d p ≫= λ n, lookup_path n q.
Proof.
  revert d. induction p as [|x p IH]; intros d; [reflexivity|].
  simpl. destruct d as [|m]; [reflexivity|].
  destruct (m !! x); [apply IH|reflexivity].
Qed.

Lemma lookup_path_file q : q ≠ [] → lookup_path File q = None.
Proof. by destruct q. Qed.

(** Nothing lives below a path that is not a directory. *)
Lemma lookup_below_non_dir d p q :
  is_dir d p = false → q ≠ [] → lookup_path d (p ++ q) = None.
Proof.
  unfold is_dir. intros H Hq. rewrite lookup_path_app.
  destruct (lookup_path d p) as [[|m]|]; simpl; [by apply lookup_path_file|done|done].
Qed.

(** After a completed [rmtree p], nothing is left at [p] or below. *)
Lemma lookup_remove_tree d p q :
  p ≠ [] → lookup_path (remove_tree d p) (p ++ q) = None.
Proof.
  revert d. induction p as [|x p IH]; intros d Hp; [done|].
  destruct d as [|m]; [by destruct p|].
  destruct p as [|y p].
  - simpl. by rewrite lookup_delete_eq.
  - change (remove_tree (Dir m) (x :: y :: p)) with
      (match m !! x with
       | Some c => Dir (<[x := remove_tree c (y :: p)]> m)
       | None => Dir m
       end).
    destruct (m !! x) as [c|] eqn:E.
    + change (lookup_path (Dir (<[x:=remove_tree c (y :: p)]> m)) ((x :: y :: p) ++ q))
        with (match <[x:=remove_tree c (y :: p)]> m !! x with
              | Some c' => lookup_path c' ((y :: p) ++ q)
              | None => None
              end).
      rewrite lookup_insert_eq. by apply IH.
    + simpl. by rewrite E.
Qed.

Lemma is_dir_remove_tree d p q : p ≠ [] → is_dir (remove_tree d p) (p ++ q) = false.
Proof. intros Hp. unfold is_dir. by rewrite lookup_remove_tree. Qed.



End DiskFacts.

(** ** The Cache Inspector *)

Section Inspector.

Import PurePath PathFacts.

Variable env : Env.

Lemma snapshots_path model_name :
  _model_cache_path env model_name // "snapshots" =
  _model_cache_path env model_name ++ ["snapshots"].
Proof. apply truediv_component. split; reflexivity. Qed.



End Inspector.

(** ** The handlers *)

(** Unfolds the handler monad down to plain case analysis. *)
Ltac run :=
  unfold shutil_rmtree in *;
  unfold try_except, mbind, M_bind, bind, ret, lift, on_disk, read_model,
    read_DIM, read_disk, write_model, write_DIM in *;
  simpl in *.

Lemma truthy_true s : Str.truthy s = true ↔ s ≠ "".
Proof. destruct s; split; done. Qed.

Lemma MODEL_NAME_nonempty env : MODEL_NAME env ≠ "".
Proof.
  unfold MODEL_NAME, _env_str. destruct (environ env !! _) as [v|]; [|done].
  simpl. destruct (Str.truthy (Str.strip v)) eqn:E; [by apply truthy_true|done].
Qed.

Section Embedding.

Variable env : Env.

Lemma embed_unloaded req w :
  _model (globals w) = None →
  embed env req w =
  (Returns [("ok", VBool false); ("model", VStr (MODEL_NAME env));
            ("dim", VInt 0); ("embeddings", VVecs [])], w).
Proof. intros H. unfold embed. run. by rewrite H. Qed.

(** C2 (as amended). With a model loaded, embedding an empty sequence
    answers [ok=true] with no vectors and the stored dimension, whatever the
    normalize flag; with no model loaded the answer is the degraded
    [ok=false] shape, also for an empty sequence. The world is not changed. *)
Theorem embed_empty_texts req w :
  texts req = [] →
  embed env req w =
  (Returns
     (match _model (globals w) with
      | Some _ =>
          [("ok", VBool true); ("model", VStr (MODEL_NAME env));
           ("dim", VInt (_DIM (globals w))); ("embeddings", VVecs [])]
      | None =>
          [("ok", VBool false); ("model", VStr (MODEL_NAME env));
           ("dim", VInt 0); ("embeddings", VVecs [])]
      end), w).
Proof.
  intros H. unfold embed. run. rewrite H.
  by destruct (_model (globals w)).
Qed.

(** C9. For a non-empty sequence and a loaded model whose [encode] returns,
    the response carries the matrix's own width as [dim] and its rows as the
    vectors, whatever dimension the registry has stored; every returned
    vector has that length. *)
Theorem embed_dim_is_matrix_width req w model vecs :
  _model (globals w) = Some model →
  texts req ≠ [] →
  encode model (texts req) (normalize req) = Returns vecs →
  embed env req w =
  (Returns [("ok", VBool true); ("model", VStr (MODEL_NAME env));
            ("dim", VInt (Z.of_nat (shape vecs).2));
            ("embeddings", VVecs (tolist vecs))], w) ∧
  Forall (λ v, Z.of_nat (length v) = Z.of_nat (shape vecs).2) (tolist vecs).
Proof.
  intros Hm Ht He. split.
  - unfold embed. run. rewrite Hm. destruct (texts req) as [|t ts]; [done|].
    by rewrite He.
  - eapply Forall_impl; [apply shape_cols|]. intros v Hv. simpl in Hv. by rewrite Hv.
Qed.

End Embedding.

Lemma embed_empty_texts_witness :
  embed Examples.env_default {| texts := []; normalize := false |}
    (Examples.loaded Examples.empty_hub) =
  (Returns [("ok", VBool true); ("model", VStr "all-MiniLM-L6-v2");
            ("dim", VInt 384); ("embeddings", VVecs [])],
   Examples.loaded Examples.empty_hub).
Proof.
  apply (embed_empty_texts Examples.env_default
           {| texts := []; normalize := false |}
           (Examples.loaded Examples.empty_hub)).
  reflexivity.
Defined.

(** C2, as worded: with no model loaded, an empty sequence is answered
    [ok=false]. *)
Lemma embed_empty_unloaded_not_ok :
  ¬ embed_empty_succeeds Examples.env_default true
      (Examples.unloaded Examples.empty_hub).
Proof.
  intros (r & w' & H & Hok & _).
  rewrite embed_unloaded in H by reflexivity.
  injection H as <- _. discriminate Hok.
Qed.

(** The registry's stored dimension is 384 here; the matrix is two wide. *)
Lemma embed_dim_is_matrix_width_witness :
  embed Examples.env_default {| texts := ["hi"]; normalize := true |}
    (Examples.loaded Examples.empty_hub) =
  (Returns [("ok", VBool true); ("model", VStr "all-MiniLM-L6-v2");
            ("dim", VInt 2); ("embeddings",
             VVecs [[Examples.float_one; Examples.float_zero]])],
   Examples.loaded Examples.empty_hub).
Proof.
  apply (embed_dim_is_matrix_width Examples.env_default
           {| texts := ["hi"]; normalize := true |}
           (Examples.loaded Examples.empty_hub) Examples.minilm Examples.vecs_1x2);
    [reflexivity|discriminate|reflexivity].
Defined.

Section Manager.

Variable env : Env.
Variable SentenceTransformer : string → node → outcome Model * node.
Variable rmtree_fault : Path → node → option (string * node).

Lemma model_download_empty_name req w :
  Str.strip (name req) = "" →
  model_download env SentenceTransformer req w = (Returns name_required, w).
Proof. intros H. unfold model_download. by rewrite H. Qed.

Lemma model_delete_empty_name req w :
  Str.strip (name req) = "" →
  model_delete env rmtree_fault req w = (Returns name_required, w).
Proof. intros H. unfold model_delete. by rewrite H. Qed.

(** On a file system that answers every query, [model_status] always
    answers [ok=true] with the stripped name and
    the inspector's verdict, and changes nothing; a name that strips to the
    empty string is answered like any other, while [model_download] and
    [model_delete] refuse it with "name is required". *)
Lemma model_status_never_fails raw w :
  model_status env raw w =
  (Returns [("ok", VBool true); ("model", VStr (Str.strip raw));
            ("cached", VBool (_is_model_cached env (disk w) (Str.strip raw)))],
   w) ∧
  (Str.strip raw = "" →
   model_status env raw w =
   (Returns [("ok", VBool true); ("model", VStr "");
             ("cached", VBool (_is_model_cached env (disk w) ""))], w) ∧
   model_download env SentenceTransformer {| name := raw |} w =
   (Returns [("ok", VBool false); ("error", VStr "name is required")], w) ∧
   model_delete env rmtree_fault {| name := raw |} w =
   (Returns [("ok", VBool false); ("error", VStr "name is required")], w)).
Proof.
  split; [reflexivity|]. intros H. split; [|split].
  - unfold model_status. by rewrite H.
  - by apply model_download_empty_name.
  - by apply model_delete_empty_name.
Qed.

(** The failures before the first write: when [SentenceTransformer(name)]
    raises, [model_download] answers
    [ok=false] with the stripped name and the error text, and the registry
    ([_model] and [_DIM] together) is what it was before the call. *)
Lemma model_download_load_failure req w e d' :
  Str.strip (name req) ≠ "" →
  SentenceTransformer (Str.strip (name req)) (disk w) = (Raises e, d') →
  model_download env SentenceTransformer req w =
  (Returns [("ok", VBool false); ("model", VStr (Str.strip (name req)));
            ("error", VStr e)],
   {| globals := globals w; disk := d' |}).
Proof.
  intros Hne Hload. unfold model_download.
  apply truthy_true in Hne. rewrite Hne. run. by rewrite Hload.
Qed.

(** The dimension read comes after the handle is stored: for the configured
    name, a handle without a dimension leaves the new handle in place next to
    the old [_DIM], and the call answers [ok=false]. *)
Remark model_download_dimension_failure req w m d' :
  Str.strip (name req) = MODEL_NAME env →
  SentenceTransformer (MODEL_NAME env) (disk w) = (Returns m, d') →
  get_sentence_embedding_dimension m = None →
  ∃ e,
    model_download env SentenceTransformer req w =
    (Returns [("ok", VBool false); ("model", VStr (MODEL_NAME env));
              ("error", VStr e)],
     {| globals := {| _model := Some m; _DIM := _DIM (globals w) |};
        disk := d' |}).
Proof.
  intros Hname Hload Hdim. unfold model_download. rewrite Hname.
  pose proof (MODEL_NAME_nonempty env) as Hne. apply truthy_true in Hne.
  rewrite Hne. run. rewrite Hload, String.eqb_refl. simpl. rewrite Hdim.
  simpl. eauto.
Qed.

(** The hot swap: for the configured name, a successful load replaces handle
    and dimension together. *)
Lemma model_download_hot_swap req w m dim d' :
  Str.strip (name req) = MODEL_NAME env →
  SentenceTransformer (MODEL_NAME env) (disk w) = (Returns m, d') →
  get_sentence_embedding_dimension m = Some dim →
  model_download env SentenceTransformer req w =
  (Returns [("ok", VBool true); ("model", VStr (MODEL_NAME env));
            ("cached", VBool true); ("dim", VInt dim)],
   {| globals := {| _model := Some m; _DIM := dim |}; disk := d' |}).
Proof.
  intros Hname Hload Hdim. unfold model_download. rewrite Hname.
  pose proof (MODEL_NAME_nonempty env) as Hne. apply truthy_true in Hne.
  rewrite Hne. run. rewrite Hload, String.eqb_refl. simpl. rewrite Hdim.
  reflexivity.
Qed.

(** C7. For a name other than the configured one, [model_download] leaves
    the registry as it was in every case; when the load succeeds the answer
    reports the new handle's dimension and the handle is not stored. *)
Theorem model_download_other_name req w :
  Str.strip (name req) ≠ MODEL_NAME env →
  globals (model_download env SentenceTransformer req w).2 = globals w ∧
  (∀ m dim d',
     Str.strip (name req) ≠ "" →
     SentenceTransformer (Str.strip (name req)) (disk w) = (Returns m, d') →
     get_sentence_embedding_dimension m = Some dim →
     model_download env SentenceTransformer req w =
     (Returns [("ok", VBool true); ("model", VStr (Str.strip (name req)));
               ("cached", VBool true); ("dim", VInt dim)],
      {| globals := globals w; disk := d' |})).
Proof.
  intros Hother. apply String.eqb_neq in Hother. split.
  - unfold model_download.
    destruct (Str.truthy (Str.strip (name req))); [|reflexivity].
    run. rewrite Hother.
    destruct (SentenceTransformer _ _) as [[m|e] d']; [|reflexivity].
    simpl. by destruct (get_sentence_embedding_dimension m).
  - intros m dim d' Hne Hload Hdim. unfold model_download.
    apply truthy_true in Hne. rewrite Hne. run.
    rewrite Hload, Hother. simpl. by rewrite Hdim.
Qed.

(** *** Deleting *)

Lemma model_delete_not_dir req w :
  Str.strip (name req) ≠ "" →
  is_dir (disk w) (_model_cache_path env (Str.strip (name req))) = false →
  model_delete env rmtree_fault req w =
  (Returns (deleted (Str.strip (name req))),
   {| globals := after_delete env (Str.strip (name req)) (globals w);
      disk := disk w |}).
Proof.
  intros Hne Hdir. unfold model_delete, after_delete.
  apply truthy_true in Hne. rewrite Hne. run. rewrite Hdir.
  destruct w. by destruct (String.eqb _ _).
Qed.

Lemma model_delete_removed req w :
  Str.strip (name req) ≠ "" →
  is_dir (disk w) (_model_cache_path env (Str.strip (name req))) = true →
  rmtree_fault (_model_cache_path env (Str.strip (name req))) (disk w) = None →
  model_delete env rmtree_fault req w =
  (Returns (deleted (Str.strip (name req))),
   {| globals := after_delete env (Str.strip (name req)) (globals w);
      disk := remove_tree (disk w)
                (_model_cache_path env (Str.strip (name req))) |}).
Proof.
  intros Hne Hdir Hok. unfold model_delete, after_delete.
  apply truthy_true in Hne. rewrite Hne. run. rewrite Hdir. simpl. rewrite Hok.
  destruct w.
  by destruct (String.eqb _ _).
Qed.

Lemma model_delete_fault req w e d' :
  Str.strip (name req) ≠ "" →
  is_dir (disk w) (_model_cache_path env (Str.strip (name req))) = true →
  rmtree_fault (_model_cache_path env (Str.strip (name req))) (disk w) =
    Some (e, d') →
  model_delete env rmtree_fault req w =
  (Returns [("ok", VBool false); ("model", VStr (Str.strip (name req)));
            ("error", VStr e)],
   {| globals := globals w; disk := d' |}).
Proof.
  intros Hne Hdir Hfault. unfold model_delete.
  apply truthy_true in Hne. rewrite Hne. run. rewrite Hdir. simpl. by rewrite Hfault.
Qed.



(** After a delete that answers [ok=true], the identifier's own cache path
    holds no snapshot. *)
Lemma model_delete_clears_own_path req w r w' :
  model_delete env rmtree_fault req w = (Returns r, w') →
  get r "ok" = Some (VBool true) →
  _check env (disk w') (Str.strip (name req)) = false.
Proof.
  intros Hrun Hok.
  destruct (decide (Str.strip (name req) = "")) as [Hempty|Hne].
  { rewrite model_delete_empty_name in Hrun by done.
    injection Hrun as <- _. discriminate Hok. }
  set (p := _model_cache_path env (Str.strip (name req))).
  assert (Hgone : lookup_path (disk w') (p ++ ["snapshots"]) = None).
  { destruct (is_dir (disk w) p) eqn:Hdir.
    - destruct (rmtree_fault p (disk w)) as [[e d']|] eqn:Hf.
      + rewrite (model_delete_fault req w e d') in Hrun by done.
        injection Hrun as <- _. discriminate Hok.
      + rewrite model_delete_removed in Hrun by done.
        injection Hrun as _ <-. simpl.
        apply lookup_remove_tree, _model_cache_path_nonempty.
    - rewrite model_delete_not_dir in Hrun by done.
      injection Hrun as _ <-. simpl. by apply lookup_below_non_dir. }
  unfold _check, is_dir. rewrite snapshots_path. fold p.
  by rewrite Hgone.
Qed.

(** So for a provider-qualified identifier a successful delete leaves the
    inspector answering false. *)
Lemma model_delete_qualified_uncached req w r w' :
  Str.contains "/" (Str.strip (name req)) = true →
  model_delete env rmtree_fault req w = (Returns r, w') →
  get r "ok" = Some (VBool true) →
  _is_model_cached env (disk w') (Str.strip (name req)) = false.
Proof.
  intros Hq Hrun Hok. unfold _is_model_cached.
  by rewrite (model_delete_clears_own_path req w r w' Hrun Hok), Hq.
Qed.

(** Deleting any other name never touches the registry, whether the removal
    fails or not. *)
Lemma model_delete_other_name req w :
  Str.strip (name req) ≠ MODEL_NAME env →
  globals (model_delete env rmtree_fault req w).2 = globals w.
Proof.
  intros Hother. apply String.eqb_neq in Hother. unfold model_delete.
  destruct (Str.truthy (Str.strip (name req))); [|reflexivity].
  run. rewrite Hother.
  destruct (is_dir _ _); [|reflexivity]. simpl.
  by destruct (rmtree_fault _ _) as [[e d']|].
Qed.

(** Startup with the configured model absent from the cache: nothing is
    loaded, and [embed] answers with the degraded shape. *)
Lemma startup_not_cached d req :
  _is_model_cached env d (MODEL_NAME env) = false →
  startup env SentenceTransformer {| globals := Unloaded; disk := d |} =
    (Returns (), {| globals := Unloaded; disk := d |}) ∧
  embed env req {| globals := Unloaded; disk := d |} =
    (Returns [("ok", VBool false); ("model", VStr (MODEL_NAME env));
              ("dim", VInt 0); ("embeddings", VVecs [])],
     {| globals := Unloaded; disk := d |}).
Proof.
  intros H. split; [|by apply embed_unloaded].
  unfold startup. run. by rewrite H.
Qed.

End Manager.

(** ** The claims at concrete inputs *)

Section Concrete.

Import Examples.

Lemma model_download_other_name_witness :
  globals (model_download env_default load_bge {| name := "BAAI/bge-m3" |}
             (loaded empty_hub)).2 = globals (loaded empty_hub) ∧
  model_download env_default load_bge {| name := "BAAI/bge-m3" |}
    (loaded empty_hub) =
  (Returns [("ok", VBool true); ("model", VStr "BAAI/bge-m3");
            ("cached", VBool true); ("dim", VInt 1024)],
   loaded empty_hub).
Proof.
  assert (H : Str.strip (name {| name := "BAAI/bge-m3" |}) ≠
              MODEL_NAME env_default) by discriminate.
  split.
  - exact (proj1 (model_download_other_name env_default load_bge
                    {| name := "BAAI/bge-m3" |} (loaded empty_hub) H)).
  - apply (proj2 (model_download_other_name env_default load_bge
                    {| name := "BAAI/bge-m3" |} (loaded empty_hub) H)
             bge 1024 empty_hub); [discriminate|reflexivity|reflexivity].
Defined.


Example model_download_half_update :
  ∃ e,
    model_download env_default load_no_dimension
      {| name := "all-MiniLM-L6-v2" |} (loaded empty_hub) =
    (Returns [("ok", VBool false); ("model", VStr "all-MiniLM-L6-v2");
              ("error", VStr e)],
     {| globals := {| _model := Some no_dimension; _DIM := 384 |};
        disk := empty_hub |}).
Proof.
  apply (model_download_dimension_failure env_default load_no_dimension
           {| name := "all-MiniLM-L6-v2" |} (loaded empty_hub) no_dimension
           empty_hub); reflexivity.
Qed.

Example model_download_hot_swap_bge :
  model_download env_bge load_bge {| name := "BAAI/bge-m3" |} (loaded disk_bge) =
  (Returns [("ok", VBool true); ("model", VStr "BAAI/bge-m3");
            ("cached", VBool true); ("dim", VInt 1024)],
   {| globals := {| _model := Some bge; _DIM := 1024 |}; disk := disk_bge |}).
Proof.
  apply (model_download_hot_swap env_bge load_bge {| name := "BAAI/bge-m3" |}
           (loaded disk_bge) bge 1024 disk_bge); reflexivity.
Qed.

(** C4 on the code: a short name cached under the provider prefix. The delete
    answers [ok=true] with [cached=false], removes nothing, and the inspector
    still finds the model. *)
Lemma model_delete_leaves_prefixed_cache :
  _is_model_cached env_default disk_mpnet "all-mpnet-base-v2" = true ∧
  model_delete env_default no_fault {| name := "all-mpnet-base-v2" |}
    (loaded disk_mpnet) =
  (Returns [("ok", VBool true); ("model", VStr "all-mpnet-base-v2");
            ("cached", VBool false)],
   loaded disk_mpnet) ∧
  _is_model_cached env_default
    (disk (model_delete env_default no_fault {| name := "all-mpnet-base-v2" |}
             (loaded disk_mpnet)).2)
    "all-mpnet-base-v2" = true.
Proof. split; [|split]; vm_compute; reflexivity. Qed.

End Concrete.

(** ** Configuration *)

Section StripFacts.

Lemma rstrip_cons c s :
  Str.isspace c = false → Str.rstrip (String c s) = String c (Str.rstrip s).
Proof. intros H. simpl. rewrite H. by destruct (Str.rstrip s). Qed.

Lemma rstrip_idemp s : Str.rstrip (Str.rstrip s) = Str.rstrip s.
Proof.
  induction s as [|c s IH]; [reflexivity|].
  simpl. destruct (Str.rstrip s) as [|c' r] eqn:E.
  - destruct (Str.isspace c) eqn:Ec; [reflexivity|]. simpl. by rewrite Ec.
  - change (Str.rstrip (String c (String c' r)))
      with (match Str.rstrip (String c' r) with
            | EmptyString =>
                if Str.isspace c then EmptyString else String c EmptyString
            | r' => String c r'
            end).
    by rewrite IH.
Qed.

Lemma lstrip_head s :
  Str.lstrip s = "" ∨
  ∃ c r, Str.lstrip s = String c r ∧ Str.isspace c = false.
Proof.
  induction s as [|c s IH]; [by left|].
  simpl. destruct (Str.isspace c) eqn:E; [exact IH|]. right. eauto.
Qed.

Lemma lstrip_fixed c s :
  Str.isspace c = false → Str.lstrip (String c s) = String c s.
Proof. intros H. simpl. by rewrite H. Qed.

Lemma strip_idemp s : Str.strip (Str.strip s) = Str.strip s.
Proof.
  unfold Str.strip. destruct (lstrip_head s) as [-> | (c & r & -> & Hc)];
    [reflexivity|].
  rewrite (rstrip_cons c r Hc), (lstrip_fixed c _ Hc), <- (rstrip_cons c r Hc).
  apply rstrip_idemp.
Qed.

End StripFacts.

Section ConfigFacts.

Variable env : Env.

(** X1. [_env_str] never hands back blank or padded text: with a default
    that is itself non-empty and free of surrounding whitespace, the result
    is non-empty and stripping it changes nothing, whatever the environment
    holds under the key. *)
Theorem _env_str_stripped_nonempty key default :
  default ≠ "" →
  Str.strip default = default →
  _env_str env key default ≠ "" ∧
  Str.strip (_env_str env key default) = _env_str env key default.
Proof.
  intros Hne Hfix. unfold _env_str.
  destruct (environ env !! key) as [v|]; [|done]. simpl.
  destruct (Str.truthy (Str.strip v)) eqn:E; [|done].
  split; [by apply truthy_true|apply strip_idemp].
Qed.

End ConfigFacts.

Lemma _env_str_stripped_nonempty_witness :
  _env_str Runs.env_padded "ECLIA_EMBEDDINGS_MODEL" "all-MiniLM-L6-v2" ≠ "" ∧
  Str.strip (_env_str Runs.env_padded "ECLIA_EMBEDDINGS_MODEL"
               "all-MiniLM-L6-v2") =
  _env_str Runs.env_padded "ECLIA_EMBEDDINGS_MODEL" "all-MiniLM-L6-v2".
Proof.
  apply (_env_str_stripped_nonempty Runs.env_padded "ECLIA_EMBEDDINGS_MODEL"
           "all-MiniLM-L6-v2"); [discriminate|reflexivity].
Defined.

Section IntFacts.

Import PyInt.

Lemma digit_char_spec d :
  (d < 10)%nat →
  is_digit (digit_char d) = true ∧ digit_value (digit_char d) = Z.of_nat d ∧
  is_space (digit_char d) = false ∧ Str.isspace (digit_char d) = false ∧
  digit_char d ≠ "+"%char ∧ digit_char d ≠ "-"%char.
Proof.
  intros H. do 10 (destruct d as [|d]; [by repeat split|]). lia.
Qed.

Lemma digits_cons c s acc n after_digit :
  digits (String c s) acc n after_digit =
  if is_digit c then digits s (10 * acc + digit_value c) (S n) true
  else if Ascii.eqb c "_" then
    if after_digit then digits s acc n false else None
  else None.
Proof. reflexivity. Qed.

Lemma text_cons d ds :
  text_of_digits (d :: ds) = String (digit_char d) (text_of_digits ds).
Proof. reflexivity. Qed.

Lemma digits_text ds acc n after_digit :
  Forall (λ d, (d < 10)%nat) ds →
  ds ≠ [] ∨ after_digit = true →
  digits (text_of_digits ds) acc n after_digit =
  Some (fold_left (λ a d, 10 * a + Z.of_nat d) ds acc, (n + length ds)%nat).
Proof.
  intros Hds. revert acc n after_digit.
  induction Hds as [|d ds Hd _ IH]; intros acc n after_digit Hne.
  - destruct Hne as [?| ->]; [done|]. cbn. by rewrite Nat.add_0_r.
  - destruct (digit_char_spec d Hd) as (H1 & H2 & _).
    rewrite text_cons, digits_cons, H1, H2, IH by (by right).
    cbn [fold_left length]. do 2 f_equal. lia.
Qed.

Lemma lskip_cons c s : is_space c = false → lskip (String c s) = String c s.
Proof. intros H. cbn [lskip]. by rewrite H. Qed.

Lemma rskip_cons c s :
  is_space c = false → rskip (String c s) = String c (rskip s).
Proof. intros H. cbn [rskip]. rewrite H. by destruct (rskip s). Qed.

Lemma lskip_text ds :
  Forall (λ d, (d < 10)%nat) ds → lskip (text_of_digits ds) = text_of_digits ds.
Proof.
  intros [|d ds' Hd _]; [reflexivity|].
  destruct (digit_char_spec d Hd) as (_ & _ & H & _).
  rewrite text_cons. by apply lskip_cons.
Qed.

Lemma rskip_text ds :
  Forall (λ d, (d < 10)%nat) ds → rskip (text_of_digits ds) = text_of_digits ds.
Proof.
  induction 1 as [|d ds Hd _ IH]; [reflexivity|].
  destruct (digit_char_spec d Hd) as (_ & _ & H & _).
  by rewrite text_cons, rskip_cons, IH.
Qed.

Lemma split_sign_none c s :
  c ≠ "+"%char → c ≠ "-"%char → split_sign (String c s) = (false, String c s).
Proof.
  intros Hp Hm.
  destruct c as [[] [] [] [] [] [] [] []]; try reflexivity; congruence.
Qed.

Lemma parse_unfold max_str_digits s :
  parse max_str_digits s =
  let '(negative, body) := split_sign (rskip (lskip s)) in
  match digits body 0 0%nat false with
  | Some (v, n) =>
      if (0 <? max_str_digits)%nat && (max_str_digits <? n)%nat then None
      else Some (if negative then - v else v)
  | None => None
  end.
Proof. reflexivity. Qed.

Lemma parse_text max_str_digits ds :
  ds ≠ [] →
  Forall (λ d, (d < 10)%nat) ds →
  parse max_str_digits (text_of_digits ds) =
  if (0 <? max_str_digits)%nat && (max_str_digits <? length ds)%nat
  then None else Some (value_of_digits ds).
Proof.
  intros Hne Hds. rewrite parse_unfold, lskip_text, rskip_text by done.
  destruct ds as [|d ds']; [done|].
  inversion Hds as [|? ? Hd Hds']; subst.
  destruct (digit_char_spec d Hd) as (_ & _ & _ & _ & Hp & Hm).
  rewrite text_cons, split_sign_none by done. rewrite <- text_cons.
  rewrite digits_text by (done || by left). reflexivity.
Qed.

Lemma parse_signed_text max_str_digits (sign : ascii) ds :
  sign = "+"%char ∨ sign = "-"%char →
  ds ≠ [] →
  Forall (λ d, (d < 10)%nat) ds →
  parse max_str_digits (String sign (text_of_digits ds)) =
  if (0 <? max_str_digits)%nat && (max_str_digits <? length ds)%nat
  then None
  else Some (if Ascii.eqb sign "-" then - value_of_digits ds
             else value_of_digits ds).
Proof.
  intros Hsign Hne Hds. rewrite parse_unfold.
  assert (Hsp : is_space sign = false) by (by destruct Hsign as [-> | ->]).
  rewrite (lskip_cons _ _ Hsp), (rskip_cons _ _ Hsp), rskip_text by done.
  destruct Hsign as [-> | ->]; cbn [split_sign];
    rewrite digits_text by (done || by left); reflexivity.
Qed.

Lemma contains_cons c d s :
  Str.contains c (String d s) = true ↔ d = c ∨ Str.contains c s = true.
Proof.
  simpl. destruct (Ascii.eqb_spec d c); [naive_solver|].
  split; [by right|]. by intros [?|?].
Qed.

Lemma contains_lskip c s :
  is_space c = false → Str.contains c s = true →
  Str.contains c (lskip s) = true.
Proof.
  intros Hc. induction s as [|d s IH]; [done|].
  intros H. cbn [lskip]. destruct (is_space d) eqn:Ed; [|exact H].
  apply contains_cons in H as [->|H]; [congruence|by apply IH].
Qed.

Lemma contains_rskip c s :
  is_space c = false → Str.contains c s = true →
  Str.contains c (rskip s) = true.
Proof.
  intros Hc. induction s as [|d s IH]; [done|].
  intros H. apply contains_cons in H as [->|H].
  - rewrite rskip_cons by done. apply contains_cons. by left.
  - specialize (IH H). cbn [rskip]. destruct (rskip s) as [|d' r]; [done|].
    apply contains_cons. by right.
Qed.

Lemma digits_foreign c s acc n after_digit :
  foreign c → Str.contains c s = true → digits s acc n after_digit = None.
Proof.
  intros (Hd & _ & Hu & _) . revert acc n after_digit.
  induction s as [|d s IH]; intros acc n after_digit H; [done|].
  apply contains_cons in H as [->|H].
  - rewrite digits_cons, Hd. apply Ascii.eqb_neq in Hu. by rewrite Hu.
  - rewrite digits_cons. destruct (is_digit d); [by apply IH|].
    destruct (Ascii.eqb d "_"); [|done].
    destruct after_digit; [by apply IH|done].
Qed.

Lemma parse_foreign max_str_digits c s :
  foreign c → Str.contains c s = true → parse max_str_digits s = None.
Proof.
  intros Hf Hin. pose proof Hf as (_ & Hsp & _ & Hp & Hm).
  pose proof (contains_rskip c _ Hsp (contains_lskip c _ Hsp Hin)) as H.
  rewrite parse_unfold. destruct (rskip (lskip s)) as [|d r]; [done|].
  assert (Hbody : Str.contains c (split_sign (String d r)).2 = true).
  { apply contains_cons in H.
    destruct (ascii_dec d "+") as [->|Hdp];
      [destruct H as [?|?]; [congruence|done]|].
    destruct (ascii_dec d "-") as [->|Hdm];
      [destruct H as [?|?]; [congruence|done]|].
    rewrite split_sign_none by done. by apply contains_cons. }
  destruct (split_sign (String d r)) as [neg body].
  by rewrite (digits_foreign c body _ _ _ Hf Hbody).
Qed.

End IntFacts.

Section EnvInt.

Variable env : Env.
Variable int_max_str_digits : nat.

(** X2. A value made of decimal digits, with any whitespace around it and
    an optional sign in front, is read by [_env_int] as the number it
    denotes, as long as the digit count is within the interpreter's limit
    (or the limit is switched off). *)
Theorem _env_int_reads_digits key default v ds :
  environ env !! key = Some v →
  ds ≠ [] →
  Forall (λ d, (d < 10)%nat) ds →
  (int_max_str_digits = 0 ∨ length ds ≤ int_max_str_digits)%nat →
  (Str.strip v = PyInt.text_of_digits ds →
   _env_int env int_max_str_digits key default = PyInt.value_of_digits ds) ∧
  (Str.strip v = String "+" (PyInt.text_of_digits ds) →
   _env_int env int_max_str_digits key default = PyInt.value_of_digits ds) ∧
  (Str.strip v = String "-" (PyInt.text_of_digits ds) →
   _env_int env int_max_str_digits key default = - PyInt.value_of_digits ds).
Proof.
  intros Hv Hne Hds Hmax.
  assert (Hlim : (0 <? int_max_str_digits)%nat &&
                 (int_max_str_digits <? length ds)%nat = false).
  { destruct Hmax as [-> | H]; [reflexivity|].
    apply andb_false_iff. right. by apply Nat.ltb_ge. }
  unfold _env_int. rewrite Hv. repeat split; intros ->.
  - by rewrite parse_text, Hlim.
  - rewrite parse_signed_text, Hlim by (done || by left). reflexivity.
  - rewrite parse_signed_text, Hlim by (done || by right). reflexivity.
Qed.

(** X3. [_env_int] never fails: it answers the default when the variable
    is missing, when its value is blank, when the value holds a character
    that is neither digit, underscore, sign nor blank (a letter, a dot),
    and when the digits outnumber the interpreter's limit. *)
Theorem _env_int_falls_back key default :
  (environ env !! key = None →
   _env_int env int_max_str_digits key default = default) ∧
  (∀ v, environ env !! key = Some v → Str.strip v = "" →
        _env_int env int_max_str_digits key default = default) ∧
  (∀ v c, environ env !! key = Some v →
          PyInt.foreign c → Str.contains c (Str.strip v) = true →
          _env_int env int_max_str_digits key default = default) ∧
  (∀ v ds, environ env !! key = Some v →
           Str.strip v = PyInt.text_of_digits ds →
           Forall (λ d, (d < 10)%nat) ds →
           (0 < int_max_str_digits < length ds)%nat →
           _env_int env int_max_str_digits key default = default).
Proof.
  unfold _env_int. repeat split.
  - by intros ->.
  - intros v -> ->. reflexivity.
  - intros v c -> Hc Hin. by rewrite (parse_foreign _ c _ Hc Hin).
  - intros v ds -> -> Hds [H0 Hlen].
    rewrite parse_text; [|by destruct ds; [simpl in Hlen; lia|]|done].
    apply Nat.ltb_lt in H0, Hlen. by rewrite H0, Hlen.
Qed.

End EnvInt.

(** ** The service as a whole *)

Section ServiceFacts.

Variable env : Env.
Variable SentenceTransformer : string → node → outcome Model * node.
Variable rmtree_fault : Path → node → option (string * node).

Lemma health_run ts w :
  health env ts w =
  (Returns [("ok", VBool true); ("service", VStr "embeddings");
            ("model", VStr (MODEL_NAME env)); ("dim", VInt (_DIM (globals w)));
            ("model_loaded", VBool (bool_decide (_model (globals w) ≠ None)));
            ("ts", VInt ts)], w).
Proof. reflexivity. Qed.

Lemma embed_world req w : (embed env req w).2 = w.
Proof.
  unfold embed. run. destruct (_model (globals w)) as [m|]; [|reflexivity].
  destruct (texts req) as [|t ts]; [reflexivity|].
  by destruct (encode m (t :: ts) (normalize req)).
Qed.

(** What a download can do to the registry. *)
Lemma model_download_globals req w :
  let w' := (model_download env SentenceTransformer req w).2 in
  globals w' = globals w ∨
  ∃ m d',
    SentenceTransformer (MODEL_NAME env) (disk w) = (Returns m, d') ∧
    ((get_sentence_embedding_dimension m = None ∧
      globals w' = {| _model := Some m; _DIM := _DIM (globals w) |}) ∨
     (∃ dim, get_sentence_embedding_dimension m = Some dim ∧
             globals w' = {| _model := Some m; _DIM := dim |})).
Proof.
  unfold model_download.
  destruct (Str.truthy (Str.strip (name req))); [|by left].
  run. destruct (String.eqb_spec (Str.strip (name req)) (MODEL_NAME env))
    as [->|Hne].
  - destruct (SentenceTransformer _ _) as [[m|e] d'] eqn:Hload; [|by left].
    right. exists m, d'. split; [reflexivity|]. simpl.
    destruct (get_sentence_embedding_dimension m) as [dim|]; simpl.
    + right. by exists dim.
    + by left.
  - left. destruct (SentenceTransformer _ _) as [[m|e] d']; [|reflexivity].
    simpl. by destruct (get_sentence_embedding_dimension m).
Qed.

(** What a delete can do to the registry. *)
Lemma model_delete_globals req w :
  let w' := (model_delete env rmtree_fault req w).2 in
  globals w' = globals w ∨ globals w' = Unloaded.
Proof.
  unfold model_delete.
  destruct (Str.truthy (Str.strip (name req))); [|by left].
  run. destruct (is_dir _ _); simpl.
  - destruct (rmtree_fault _ _) as [[e d']|]; [by left|]. simpl.
    destruct (String.eqb _ _); [by right|by left].
  - destruct (String.eqb _ _); [by right|by left].
Qed.

(** What importing the module leaves behind, when it does not raise. *)
Lemma startup_globals d w :
  startup env SentenceTransformer {| globals := Unloaded; disk := d |} =
    (Returns tt, w) →
  globals w = Unloaded ∨
  ∃ m d' dim,
    SentenceTransformer (MODEL_NAME env) d = (Returns m, d') ∧
    get_sentence_embedding_dimension m = Some dim ∧
    globals w = {| _model := Some m; _DIM := dim |}.
Proof.
  unfold startup. run.
  destruct (_is_model_cached env d (MODEL_NAME env)).
  - destruct (SentenceTransformer _ _) as [[m|e] d'] eqn:Hload; [|done].
    simpl. destruct (get_sentence_embedding_dimension m) as [dim|] eqn:Hdim;
      simpl; [|done].
    intros [= <-]. right. by exists m, d', dim.
  - intros [= <-]. by left.
Qed.

(** An invariant of the registry: it holds after startup and every handler
    keeps it. *)
Lemma reachable_ind_globals (P : Globals → Prop) :
  P Unloaded →
  (∀ m d d' dim,
     SentenceTransformer (MODEL_NAME env) d = (Returns m, d') →
     get_sentence_embedding_dimension m = Some dim →
     P {| _model := Some m; _DIM := dim |}) →
  (∀ g m d d',
     P g →
     SentenceTransformer (MODEL_NAME env) d = (Returns m, d') →
     get_sentence_embedding_dimension m = None →
     P {| _model := Some m; _DIM := _DIM g |}) →
  ∀ w, reachable env SentenceTransformer rmtree_fault w → P (globals w).
Proof.
  intros Hunl Hswap Hhalf w Hw.
  induction Hw as [d w Hstart|q w Hw IH|w d Hw IH].
  - destruct (startup_globals d w Hstart) as [-> | (m & d' & dim & ? & ? & ->)];
      eauto.
  - destruct q as [ts|req|raw|req|req]; simpl.
    + exact IH.
    + by rewrite embed_world.
    + exact IH.
    + destruct (model_download_globals req w)
        as [-> | (m & d' & Hload & [[Hdim ->] | (dim & Hdim & ->)])]; eauto.
    + destruct (model_delete_globals req w) as [-> | ->]; eauto.
  - exact IH.
Qed.

(** X4. Between requests served one after another, an unloaded registry
    always has dimension 0: [/health] never reports [model_loaded=false]
    together with a non-zero [dim]. *)
Theorem unloaded_has_dimension_zero w ts :
  reachable env SentenceTransformer rmtree_fault w →
  (_model (globals w) = None → _DIM (globals w) = 0) ∧
  ∃ loaded dim,
    health env ts w =
    (Returns [("ok", VBool true); ("service", VStr "embeddings");
              ("model", VStr (MODEL_NAME env)); ("dim", VInt dim);
              ("model_loaded", VBool loaded); ("ts", VInt ts)], w) ∧
    (loaded = false → dim = 0).
Proof.
  intros Hw.
  assert (H : _model (globals w) = None → _DIM (globals w) = 0).
  { revert w Hw.
    apply (reachable_ind_globals (λ g, _model g = None → _DIM g = 0));
      simpl; done. }
  split; [exact H|]. eexists _, _. split; [apply health_run|].
  intros Hl. apply H. apply bool_decide_eq_false in Hl.
  destruct (_model (globals w)); [by destruct Hl|reflexivity].
Qed.

(** X5. Between requests served one after another, the active handle is
    always one that [SentenceTransformer] returned for the configured name:
    no request can install a model loaded under another name. *)
Theorem active_handle_is_configured_model w m :
  reachable env SentenceTransformer rmtree_fault w →
  _model (globals w) = Some m →
  ∃ d d', SentenceTransformer (MODEL_NAME env) d = (Returns m, d').
Proof.
  intros Hw. revert m.
  generalize dependent w.
  apply (reachable_ind_globals
           (λ g, ∀ m, _model g = Some m →
                      ∃ d d', SentenceTransformer (MODEL_NAME env) d =
                              (Returns m, d'))); simpl.
  - done.
  - intros m d d' dim Hload _ m' [= <-]. eauto.
  - intros g m d d' _ Hload _ m' [= <-]. eauto.
Qed.

(** X6. If every handle the library returns reports a dimension, then
    between requests served one after another the stored [_DIM] is the
    active handle's own dimension. *)
Theorem stored_dimension_matches_handle w m :
  (∀ n d m' d',
     SentenceTransformer n d = (Returns m', d') →
     get_sentence_embedding_dimension m' ≠ None) →
  reachable env SentenceTransformer rmtree_fault w →
  _model (globals w) = Some m →
  get_sentence_embedding_dimension m = Some (_DIM (globals w)).
Proof.
  intros Hdim Hw. revert m. generalize dependent w.
  apply (reachable_ind_globals
           (λ g, ∀ m, _model g = Some m →
                      get_sentence_embedding_dimension m = Some (_DIM g)));
    simpl.
  - done.
  - by intros m d d' dim _ Hd m' [= <-].
  - intros g m d d' _ Hload Hnone. by destruct (Hdim _ _ _ _ Hload).
Qed.

End ServiceFacts.

Section Compositions.

Variable env : Env.
Variable SentenceTransformer : string → node → outcome Model * node.
Variable rmtree_fault : Path → node → option (string * node).

(** What [embed] answers depends on the registry alone. *)
Lemma embed_globals req w1 w2 :
  globals w1 = globals w2 → (embed env req w1).1 = (embed env req w2).1.
Proof.
  destruct w1 as [g1 d1], w2 as [g2 d2]. simpl. intros ->.
  unfold embed. run.
  destruct (_model g2) as [m|]; [|reflexivity].
  destruct (texts req) as [|t ts]; [reflexivity|].
  by destruct (encode m (t :: ts) (normalize req)).
Qed.

(** X7. [embed] is read-only: it never changes registry or disk. It raises
    exactly when a model is loaded, the texts are not empty and the handle's
    [encode] raises, and then with that very error: this one failure is not
    turned into a response. *)
Theorem embed_read_only req w :
  (embed env req w).2 = w ∧
  ∀ e, (embed env req w).1 = Raises e ↔
       ∃ m, _model (globals w) = Some m ∧ texts req ≠ [] ∧
            encode m (texts req) (normalize req) = Raises e.
Proof.
  split; [apply embed_world|]. intros e. unfold embed. run.
  destruct (_model (globals w)) as [m|]; simpl.
  - destruct (texts req) as [|t ts] eqn:Ht; simpl.
    + split; [done|]. by intros (m' & _ & ? & _).
    + destruct (encode m (t :: ts) (normalize req)) as [vecs|e'] eqn:He; simpl.
      * split; [done|]. intros (m' & [= <-] & _ & He').
        rewrite He in He'. discriminate He'.
      * split.
        -- intros [= ->]. by exists m.
        -- intros (m' & [= <-] & _ & He'). rewrite He in He'.
           by injection He' as ->.
  - split; [done|]. by intros (m' & ? & _).
Qed.

(** X8. Hot swap, end to end: after a download of the configured name whose
    load succeeds with dimension [dim], [/health] reports
    [model_loaded=true] with that [dim], and an empty [embed] answers
    [ok=true] with the same [dim]. *)
Theorem download_configured_then_health req w m dim d' ts nrm :
  Str.strip (name req) = MODEL_NAME env →
  SentenceTransformer (MODEL_NAME env) (disk w) = (Returns m, d') →
  get_sentence_embedding_dimension m = Some dim →
  let w' := (model_download env SentenceTransformer req w).2 in
  w' = {| globals := {| _model := Some m; _DIM := dim |}; disk := d' |} ∧
  health env ts w' =
  (Returns [("ok", VBool true); ("service", VStr "embeddings");
            ("model", VStr (MODEL_NAME env)); ("dim", VInt dim);
            ("model_loaded", VBool true); ("ts", VInt ts)], w') ∧
  embed env {| texts := []; normalize := nrm |} w' =
  (Returns [("ok", VBool true); ("model", VStr (MODEL_NAME env));
            ("dim", VInt dim); ("embeddings", VVecs [])], w').
Proof.
  intros Hname Hload Hdim w'. subst w'.
  rewrite (model_download_hot_swap env SentenceTransformer req w m dim d')
    by done.
  simpl. split; [reflexivity|]. split; reflexivity.
Qed.

(** X9. The swap is not atomic: for the configured name, when the new
    handle reports no dimension the download answers [ok=false], yet the new
    handle is already the active one while the old [_DIM] stays; [/health]
    then reports the old dimension with [model_loaded=true], and [embed] of
    a non-empty sequence is served by the new handle. *)
Theorem download_dimension_failure_observed req w m d' ts ereq vecs :
  Str.strip (name req) = MODEL_NAME env →
  SentenceTransformer (MODEL_NAME env) (disk w) = (Returns m, d') →
  get_sentence_embedding_dimension m = None →
  texts ereq ≠ [] →
  encode m (texts ereq) (normalize ereq) = Returns vecs →
  let out := model_download env SentenceTransformer req w in
  (∃ e, out.1 = Returns [("ok", VBool false); ("model", VStr (MODEL_NAME env));
                         ("error", VStr e)]) ∧
  globals out.2 = {| _model := Some m; _DIM := _DIM (globals w) |} ∧
  (health env ts out.2).1 =
    Returns [("ok", VBool true); ("service", VStr "embeddings");
             ("model", VStr (MODEL_NAME env)); ("dim", VInt (_DIM (globals w)));
             ("model_loaded", VBool true); ("ts", VInt ts)] ∧
  (embed env ereq out.2).1 =
    Returns [("ok", VBool true); ("model", VStr (MODEL_NAME env));
             ("dim", VInt (Z.of_nat (shape vecs).2));
             ("embeddings", VVecs (tolist vecs))].
Proof.
  intros Hname Hload Hdim Ht He out.
  destruct (model_download_dimension_failure env SentenceTransformer req w m d'
              Hname Hload Hdim) as (e & Hrun).
  subst out. rewrite Hrun. simpl. split; [by exists e|]. split; [reflexivity|].
  split; [reflexivity|].
  unfold embed. run. destruct (texts ereq) as [|t ts']; [done|].
  by rewrite He.
Qed.

(** X10. Deleting any name other than the configured one, whether the
    removal fails or not, changes nothing a client can see of the registry:
    [/health] and [embed] answer as before. *)
Theorem delete_other_name_unobservable req w ts ereq :
  Str.strip (name req) ≠ MODEL_NAME env →
  let w' := (model_delete env rmtree_fault req w).2 in
  globals w' = globals w ∧
  (health env ts w').1 = (health env ts w).1 ∧
  (embed env ereq w').1 = (embed env ereq w).1.
Proof.
  intros Hother w'.
  pose proof (model_delete_other_name env rmtree_fault req w Hother) as Hg.
  fold w' in Hg. split; [exact Hg|]. split.
  - rewrite !health_run. simpl. by rewrite Hg.
  - by apply embed_globals.
Qed.

(** X11. After a delete of a provider-qualified name answers [ok=true],
    [model_status] for the same name reports [cached=false]. *)
Theorem delete_then_status_qualified req w r w' :
  Str.contains "/" (Str.strip (name req)) = true →
  model_delete env rmtree_fault req w = (Returns r, w') →
  get r "ok" = Some (VBool true) →
  model_status env (name req) w' =
  (Returns [("ok", VBool true); ("model", VStr (Str.strip (name req)));
            ("cached", VBool false)], w').
Proof.
  intros Hq Hrun Hok. unfold model_status. run.
  by rewrite (model_delete_qualified_uncached env rmtree_fault req w r w'
                Hq Hrun Hok).
Qed.

(** The disk after a delete that answered [ok=true]. *)
Lemma model_delete_ok_world req w r w' :
  model_delete env rmtree_fault req w = (Returns r, w') →
  get r "ok" = Some (VBool true) →
  Str.strip (name req) ≠ "" ∧
  r = deleted (Str.strip (name req)) ∧
  globals w' = after_delete env (Str.strip (name req)) (globals w) ∧
  (disk w' = disk w ∨
   disk w' = remove_tree (disk w)
               (_model_cache_path env (Str.strip (name req)))) ∧
  is_dir (disk w') (_model_cache_path env (Str.strip (name req))) = false.
Proof.
  intros Hrun Hok.
  destruct (decide (Str.strip (name req) = "")) as [Hempty|Hne].
  { rewrite model_delete_empty_name in Hrun by done.
    injection Hrun as <- _. discriminate Hok. }
  split; [exact Hne|].
  set (p := _model_cache_path env (Str.strip (name req))) in *.
  destruct (is_dir (disk w) p) eqn:Hdir.
  - destruct (rmtree_fault p (disk w)) as [[e d']|] eqn:Hf.
    + rewrite (model_delete_fault env rmtree_fault req w e d') in Hrun by done.
      injection Hrun as <- _. discriminate Hok.
    + rewrite model_delete_removed in Hrun by done.
      injection Hrun as <- <-. simpl. repeat split; [by right|].
      pose proof (is_dir_remove_tree (disk w) p []
                    (_model_cache_path_nonempty env _)) as H.
      by rewrite app_nil_r in H.
  - rewrite model_delete_not_dir in Hrun by done.
    injection Hrun as <- <-. simpl. repeat split; [by left|exact Hdir].
Qed.

(** X12. Delete is idempotent: once a delete has answered [ok=true],
    repeating it gives the same answer and leaves registry and disk exactly
    as the first one left them, whatever [rmtree] would do. *)
Theorem model_delete_idempotent req w r w' :
  model_delete env rmtree_fault req w = (Returns r, w') →
  get r "ok" = Some (VBool true) →
  model_delete env rmtree_fault req w' = (Returns r, w').
Proof.
  intros Hrun Hok.
  destruct (model_delete_ok_world req w r w' Hrun Hok)
    as (Hne & -> & Hg & _ & Hdir).
  rewrite model_delete_not_dir by done. f_equal.
  destruct w' as [g' d']. simpl in *. f_equal.
  rewrite Hg. unfold after_delete. by destruct (String.eqb _ _).
Qed.

End Compositions.

Section Confinement.

Import PurePath PathFacts.

Variable env : Env.
Variable SentenceTransformer : string → node → outcome Model * node.
Variable rmtree_fault : Path → node → option (string * node).

Lemma remove_tree_cons2 m x y p :
  remove_tree (Dir m) (x :: y :: p) =
  match m !! x with
  | Some c => Dir (<[x := remove_tree c (y :: p)]> m)
  | None => Dir m
  end.
Proof. reflexivity. Qed.

(** A completed [rmtree p] changes nothing at a path that parts ways with
    [p]. *)
Lemma lookup_remove_tree_diverge d p q :
  diverge p q = true → lookup_path (remove_tree d p) q = lookup_path d q.
Proof.
  revert d q. induction p as [|x p IH]; intros d q H; [done|].
  destruct q as [|y q]; [done|]. simpl in H.
  destruct d as [|m]; [by destruct p|].
  destruct (String.eqb_spec x y) as [->|Hxy].
  - destruct p as [|z p]; [done|]. rewrite remove_tree_cons2.
    destruct (m !! y) as [c|] eqn:E; [|reflexivity].
    simpl. rewrite lookup_insert_eq, E. by apply IH.
  - destruct p as [|z p].
    + simpl. by rewrite lookup_delete_ne.
    + rewrite remove_tree_cons2. destruct (m !! x); [|reflexivity].
      simpl. by rewrite lookup_insert_ne.
Qed.

Lemma diverge_app_same r p q : diverge (r ++ p) (r ++ q) = diverge p q.
Proof. induction r as [|x r IH]; [reflexivity|]. simpl. by rewrite String.eqb_refl. Qed.

Lemma diverge_app_l p q r : diverge p q = true → diverge (p ++ r) q = true.
Proof.
  revert q. induction p as [|x p IH]; intros q H; [done|].
  destruct q as [|y q]; [done|]. simpl in *.
  destruct (String.eqb x y); [by apply IH|reflexivity].
Qed.

Lemma diverge_app_r p q r : diverge p q = true → diverge p (q ++ r) = true.
Proof.
  revert q. induction p as [|x p IH]; intros q H; [done|].
  destruct q as [|y q]; [done|]. simpl in *.
  destruct (String.eqb x y); [by apply IH|reflexivity].
Qed.

Lemma diverge_head x y p q : x ≠ y → diverge (x :: p) (y :: q) = true.
Proof. intros H. cbn [diverge]. apply String.eqb_neq in H. by rewrite H. Qed.

Lemma append_cancel p a b : p +:+ a = p +:+ b → a = b.
Proof.
  induction p as [|c p IH]; [done|]. rewrite !append_cons. intros [= H]. auto.
Qed.

Lemma _check_lookup d1 d2 model_name :
  lookup_path d1 (_model_cache_path env model_name ++ ["snapshots"]) =
  lookup_path d2 (_model_cache_path env model_name ++ ["snapshots"]) →
  _check env d1 model_name = _check env d2 model_name.
Proof.
  intros H. unfold _check, is_dir, iterdir. rewrite snapshots_path. by rewrite H.
Qed.

(** X13. On a disk without symbolic links and with a cache root that is an
    absolute path of plain names (no [.] or [..] in it), a delete that
    answers [ok=true] is confined to the model's own cache folder, whatever
    the name looks like: every absolute path of plain names that parts ways
    with that folder, so everything outside the cache root in particular,
    holds what it held before. *)
Theorem model_delete_confined req w r w' q :
  resolved (_hf_cache_dir env) →
  resolved q →
  model_delete env rmtree_fault req w = (Returns r, w') →
  get r "ok" = Some (VBool true) →
  diverge (_model_cache_path env (Str.strip (name req))) q = true ∨
  diverge (_hf_cache_dir env) q = true →
  lookup_path (disk w') q = lookup_path (disk w) q.
Proof.
  intros _ _ Hrun Hok Hq.
  assert (Hdiv : diverge (_model_cache_path env (Str.strip (name req))) q = true).
  { destruct Hq as [?|Hq]; [done|].
    rewrite _model_cache_path_parts. by apply diverge_app_l. }
  destruct (model_delete_ok_world env rmtree_fault req w r w' Hrun Hok)
    as (_ & _ & _ & [-> | ->] & _); [reflexivity|].
  by apply lookup_remove_tree_diverge.
Qed.

(** X14. Deleting one model leaves the inspector's verdict on every other
    model as it was, provided neither of the two folders the inspector looks
    at for the other model is the deleted model's folder. *)
Theorem model_delete_keeps_other_models req w r w' other :
  model_delete env rmtree_fault req w = (Returns r, w') →
  get r "ok" = Some (VBool true) →
  Str.replace "/" "--" other ≠ Str.replace "/" "--" (Str.strip (name req)) →
  Str.replace "/" "--" ("sentence-transformers/" +:+ other) ≠
    Str.replace "/" "--" (Str.strip (name req)) →
  _is_model_cached env (disk w') other = _is_model_cached env (disk w) other.
Proof.
  intros Hrun Hok H1 H2.
  assert (Hframe : ∀ b,
    Str.replace "/" "--" b ≠ Str.replace "/" "--" (Str.strip (name req)) →
    _check env (disk w') b = _check env (disk w) b).
  { intros b Hb. apply _check_lookup.
    destruct (model_delete_ok_world env rmtree_fault req w r w' Hrun Hok)
      as (_ & _ & _ & [-> | ->] & _); [reflexivity|].
    apply lookup_remove_tree_diverge.
    rewrite !_model_cache_path_parts, <- app_assoc, diverge_app_same.
    apply diverge_head. intros E. apply Hb. symmetry.
    by apply append_cancel in E. }
  unfold _is_model_cached. by rewrite !Hframe.
Qed.

Lemma replace_slash_free_id s :
  Str.contains "/" s = false → Str.replace "/" "--" s = s.
Proof.
  induction s as [|c s IH]; [reflexivity|]. simpl.
  destruct (Ascii.eqb c "/"); [discriminate|]. intros H. by rewrite IH.
Qed.

(** X15. Identifiers that differ only in writing [/] as [--] share one
    cache folder: the locator sends an identifier and its
    slash-replaced form to the same path, so the inspector's own-path check
    cannot tell them apart and deleting one removes the other's cache. *)
Theorem cache_folder_collision model_name d :
  _model_cache_path env (Str.replace "/" "--" model_name) =
    _model_cache_path env model_name ∧
  _check env d (Str.replace "/" "--" model_name) = _check env d model_name.
Proof.
  assert (H : _model_cache_path env (Str.replace "/" "--" model_name) =
              _model_cache_path env model_name).
  { unfold _model_cache_path.
    by rewrite (replace_slash_free_id _ (replace_slash_free model_name)). }
  split; [exact H|]. unfold _check. by rewrite H.
Qed.



End Confinement.

Section QualifiedDelete.

Variable env : Env.
Variable rmtree_fault : Path → node → option (string * node).

Lemma append_length a b :
  String.length (a +:+ b) = (String.length a + String.length b)%nat.
Proof. induction a as [|c a IH]; [reflexivity|]. rewrite append_cons. simpl. by rewrite IH. Qed.

(** X25. A short name is really removed by deleting its qualified form:
    for a name without [/] that has no folder of its own in the cache, once
    a delete of [sentence-transformers/<name>] has answered [ok=true] the
    inspector no longer finds the short name either. *)
Theorem delete_qualified_clears_short_name req w r w' short :
  Str.contains "/" short = false →
  Str.strip (name req) = "sentence-transformers/" +:+ short →
  _check env (disk w) short = false →
  model_delete env rmtree_fault req w = (Returns r, w') →
  get r "ok" = Some (VBool true) →
  _is_model_cached env (disk w') short = false ∧
  _is_model_cached env (disk w') ("sentence-transformers/" +:+ short) = false.
Proof.
  intros Hshort Hname Hbare Hrun Hok.
  pose proof (model_delete_clears_own_path env rmtree_fault req w r w' Hrun Hok)
    as Hown. rewrite Hname in Hown.
  assert (Hframe : _check env (disk w') short = _check env (disk w) short).
  { apply _check_lookup.
    destruct (model_delete_ok_world env rmtree_fault req w r w' Hrun Hok)
      as (_ & _ & _ & [-> | ->] & _); [reflexivity|].
    apply lookup_remove_tree_diverge.
    rewrite Hname, !_model_cache_path_parts, <- app_assoc, diverge_app_same.
    apply diverge_head. intros E. apply append_cancel in E.
    apply (f_equal String.length) in E.
    rewrite (replace_slash_free_id short Hshort) in E.
    change (Str.replace "/" "--" ("sentence-transformers/" +:+ short))
      with ("sentence-transformers--" +:+ Str.replace "/" "--" short) in E.
    rewrite (replace_slash_free_id short Hshort), append_length in E.
    simpl in E. lia. }
  assert (Hq : Str.contains "/" ("sentence-transformers/" +:+ short) = true).
  { rewrite contains_app. reflexivity. }
  split; unfold _is_model_cached.
  - by rewrite Hframe, Hbare, Hshort, Hown.
  - by rewrite Hown, Hq.
Qed.

End QualifiedDelete.

Lemma delete_qualified_clears_short_name_witness :
  _is_model_cached Examples.env_default
    (disk (model_delete Examples.env_default Examples.no_fault
             {| name := "sentence-transformers/all-mpnet-base-v2" |}
             (Examples.loaded Examples.disk_mpnet)).2)
    "all-mpnet-base-v2" = false ∧
  _is_model_cached Examples.env_default
    (disk (model_delete Examples.env_default Examples.no_fault
             {| name := "sentence-transformers/all-mpnet-base-v2" |}
             (Examples.loaded Examples.disk_mpnet)).2)
    ("sentence-transformers/" +:+ "all-mpnet-base-v2") = false.
Proof.
  apply (delete_qualified_clears_short_name Examples.env_default
           Examples.no_fault
           {| name := "sentence-transformers/all-mpnet-base-v2" |}
           (Examples.loaded Examples.disk_mpnet)
           (deleted "sentence-transformers/all-mpnet-base-v2")
           (model_delete Examples.env_default Examples.no_fault
              {| name := "sentence-transformers/all-mpnet-base-v2" |}
              (Examples.loaded Examples.disk_mpnet)).2
           "all-mpnet-base-v2");
    reflexivity.
Defined.

(** ** The image client's payload helpers *)

Section ClientFacts.

Import SdT2i.

Variable repr : json → string.
Variable int_max_str_digits : nat.

Lemma append_nil_r s : s +:+ "" = s.
Proof. induction s as [|c s IH]; [reflexivity|]. by rewrite append_cons, IH. Qed.

Lemma append_assoc a b c : (a +:+ b) +:+ c = a +:+ (b +:+ c).
Proof. induction a as [|x a IH]; [reflexivity|]. by rewrite !append_cons, IH. Qed.

Lemma rstrip_chars_cons chars c s :
  rstrip_chars chars (String c s) =
  match rstrip_chars chars s with
  | EmptyString =>
      if Str.contains c chars then EmptyString else String c EmptyString
  | r => String c r
  end.
Proof. reflexivity. Qed.

Lemma rstrip_chars_split chars s :
  ∃ tail,
    s = rstrip_chars chars s +:+ tail ∧
    (∀ c, Str.contains c tail = true → Str.contains c chars = true).
Proof.
  induction s as [|c s (tail & Hs & Htail)]; [by exists ""|].
  rewrite rstrip_chars_cons.
  destruct (rstrip_chars chars s) as [|c' r] eqn:E.
  - destruct (Str.contains c chars) eqn:Ec.
    + exists (String c tail). split; [by rewrite Hs at 1|].
      intros x Hx. apply contains_cons in Hx as [<-|Hx]; auto.
    + exists tail. split; [by rewrite Hs at 1|done].
  - exists tail. split; [|done]. rewrite append_cons. by rewrite Hs at 1.
Qed.

Lemma rstrip_chars_last chars s r c :
  rstrip_chars chars s = r +:+ String c "" → Str.contains c chars = false.
Proof.
  revert r. induction s as [|d s IH]; intros r.
  - destruct r; discriminate.
  - rewrite rstrip_chars_cons.
    destruct (rstrip_chars chars s) as [|c' r'] eqn:E.
    + destruct (Str.contains d chars) eqn:Ed; [by destruct r|].
      destruct r as [|x r]; [by intros [= <-]|].
      rewrite append_cons. intros [= _ H]. by destruct r.
    + destruct r as [|x r]; [discriminate|].
      rewrite append_cons. intros [= _ H]. by apply (IH r).
Qed.

Lemma rstrip_chars_idemp chars s :
  rstrip_chars chars (rstrip_chars chars s) = rstrip_chars chars s.
Proof.
  induction s as [|c s IH]; [reflexivity|].
  rewrite rstrip_chars_cons.
  destruct (rstrip_chars chars s) as [|c' r] eqn:E.
  - destruct (Str.contains c chars) eqn:Ec; [reflexivity|].
    rewrite rstrip_chars_cons. cbn [rstrip_chars]. by rewrite Ec.
  - rewrite rstrip_chars_cons, IH. reflexivity.
Qed.

(** X18. [_strip_trailing_commas_spaces] cuts off the longest tail made of
    blanks, commas, tabs and line ends and nothing else: the input is the
    result followed by such characters only, the result does not end in one
    of them, and applying the function again changes nothing. *)
Theorem strip_trailing_commas_spaces_spec s :
  (∃ tail,
     s = _strip_trailing_commas_spaces s +:+ tail ∧
     ∀ c, Str.contains c tail = true → Str.contains c separators = true) ∧
  (∀ r c, _strip_trailing_commas_spaces s = r +:+ String c "" →
          Str.contains c separators = false) ∧
  _strip_trailing_commas_spaces (_strip_trailing_commas_spaces s) =
    _strip_trailing_commas_spaces s.
Proof.
  unfold _strip_trailing_commas_spaces. split; [apply rstrip_chars_split|].
  split; [apply rstrip_chars_last|apply rstrip_chars_idemp].
Qed.

Lemma truthy_false_iff s : Str.truthy s = false ↔ s = "".
Proof. destruct s; split; done. Qed.

Lemma merge_prompts_unfold tpl user_prompt neg_extra :
  merge_prompts repr tpl user_prompt neg_extra =
  let t := cleaned repr tpl "prompt" in
  let u := Str.strip user_prompt in
  let n := cleaned repr tpl "negative_prompt" in
  let e := Str.strip neg_extra in
  let tpl1 :=
    <["prompt" :=
        JStr (if Str.truthy t && Str.truthy u then t +:+ ", " +:+ u
              else if Str.truthy t then t else u)]> tpl in
  if Str.truthy e then
    <["negative_prompt" :=
        JStr (if Str.truthy n then n +:+ ", " +:+ e else e)]> tpl1
  else if Str.truthy n then <["negative_prompt" := JStr n]> tpl1
  else delete "negative_prompt" tpl1.
Proof.
  unfold merge_prompts, cleaned, text_at.
  rewrite (lookup_insert_ne tpl "prompt" "negative_prompt") by discriminate.
  reflexivity.
Qed.

Lemma merge_prompts_lookup_prompt tpl user_prompt neg_extra :
  merge_prompts repr tpl user_prompt neg_extra !! "prompt" =
  Some (JStr (if Str.truthy (cleaned repr tpl "prompt") &&
                 Str.truthy (Str.strip user_prompt)
              then cleaned repr tpl "prompt" +:+ ", " +:+ Str.strip user_prompt
              else if Str.truthy (cleaned repr tpl "prompt")
                   then cleaned repr tpl "prompt"
                   else Str.strip user_prompt)).
Proof.
  rewrite merge_prompts_unfold. cbv zeta.
  destruct (Str.truthy (Str.strip neg_extra));
    [|destruct (Str.truthy (cleaned repr tpl "negative_prompt"))];
    rewrite ?lookup_insert_ne, ?lookup_delete_ne by discriminate;
    apply lookup_insert_eq.
Qed.

Lemma merge_prompts_frame tpl user_prompt neg_extra k :
  k ≠ "prompt" → k ≠ "negative_prompt" →
  merge_prompts repr tpl user_prompt neg_extra !! k = tpl !! k.
Proof.
  intros H1 H2. rewrite merge_prompts_unfold. cbv zeta.
  destruct (Str.truthy (Str.strip neg_extra));
    [|destruct (Str.truthy (cleaned repr tpl "negative_prompt"))];
    rewrite ?lookup_insert_ne, ?lookup_delete_ne by done;
    rewrite ?lookup_insert_ne by done; reflexivity.
Qed.

Lemma merge_prompts_lookup_negative tpl user_prompt neg_extra :
  merge_prompts repr tpl user_prompt neg_extra !! "negative_prompt" =
  let n := cleaned repr tpl "negative_prompt" in
  let e := Str.strip neg_extra in
  if Str.truthy e then Some (JStr (if Str.truthy n then n +:+ ", " +:+ e else e))
  else if Str.truthy n then Some (JStr n) else None.
Proof.
  rewrite merge_prompts_unfold. cbv zeta.
  destruct (Str.truthy (Str.strip neg_extra));
    [|destruct (Str.truthy (cleaned repr tpl "negative_prompt"))];
    rewrite ?lookup_insert_eq, ?lookup_delete_eq; reflexivity.
Qed.

(** X19. [merge_prompts] touches the two prompt keys only, and always
    leaves a text under [prompt]: the template's own prompt (stripped, its
    trailing separators cut) and the stripped user prompt, joined by one
    comma and blank when both are non-empty, else whichever is non-empty.
    The template's share never ends in a separator; the user prompt is
    taken as it is, stripped of surrounding whitespace only. *)
Theorem merge_prompts_prompt tpl user_prompt neg_extra :
  let t := cleaned repr tpl "prompt" in
  let u := Str.strip user_prompt in
  let merged := merge_prompts repr tpl user_prompt neg_extra in
  (∀ k, k ≠ "prompt" → k ≠ "negative_prompt" → merged !! k = tpl !! k) ∧
  (t ≠ "" → u ≠ "" → merged !! "prompt" = Some (JStr (t +:+ ", " +:+ u))) ∧
  (u = "" → merged !! "prompt" = Some (JStr t)) ∧
  (t = "" → merged !! "prompt" = Some (JStr u)) ∧
  (∀ r c, t = r +:+ String c "" → Str.contains c separators = false).
Proof.
  intros t u merged. subst merged.
  split; [intros k; apply merge_prompts_frame|].
  rewrite merge_prompts_lookup_prompt. fold t u.
  split; [|split; [|split]].
  - intros Ht Hu. apply truthy_true in Ht, Hu. by rewrite Ht, Hu.
  - intros ->. rewrite andb_false_r. simpl. by destruct t.
  - intros ->. reflexivity.
  - intros r c. apply rstrip_chars_last.
Qed.

(** X20. [merge_prompts] never sends an empty negative prompt: afterwards
    [negative_prompt] is either absent or a non-empty text. It is absent
    exactly when both the template's negative prompt (cleaned) and the extra
    negatives (stripped) are empty; with both present they are joined by one
    comma and blank. *)
Theorem merge_prompts_negative tpl user_prompt neg_extra :
  let n := cleaned repr tpl "negative_prompt" in
  let e := Str.strip neg_extra in
  let merged := merge_prompts repr tpl user_prompt neg_extra in
  (merged !! "negative_prompt" = None ↔ n = "" ∧ e = "") ∧
  (∀ v, merged !! "negative_prompt" = Some v → ∃ s, v = JStr s ∧ s ≠ "") ∧
  (n ≠ "" → e ≠ "" →
   merged !! "negative_prompt" = Some (JStr (n +:+ ", " +:+ e))).
Proof.
  intros n e merged. subst merged.
  rewrite merge_prompts_lookup_negative. fold n e. cbv zeta.
  destruct e as [|c e']; destruct n as [|c' n']; simpl;
    (split; [split; [done|]; by intros []|]);
    (split; [intros v [= <-]; eauto|done]).
Qed.

End ClientFacts.

Section ClientToggles.

Import SdT2i.

Variable int_max_str_digits : nat.

Lemma missing_nil (tpl : gmap string json) :
  List.filter (λ k, negb (bool_decide (is_Some (tpl !! k)))) hires_keys = [] ↔
  ∀ k, k ∈ hires_keys → is_Some (tpl !! k).
Proof.
  unfold hires_keys. split.
  - intros H k Hk.
    destruct (decide (is_Some (tpl !! k))) as [|Hno]; [done|].
    assert (Hin : In k (List.filter
      (λ k, negb (bool_decide (is_Some (tpl !! k))))
      ["hr_scale"; "hr_upscaler"; "hr_second_pass_steps"])).
    { apply filter_In. split; [by apply list_elem_of_In|].
      by rewrite bool_decide_eq_false_2. }
    rewrite H in Hin. destruct Hin.
  - intros H.
    assert (Hall : ∀ k, In k ["hr_scale"; "hr_upscaler"; "hr_second_pass_steps"] →
                        negb (bool_decide (is_Some (tpl !! k))) = false).
    { intros k Hk. rewrite bool_decide_eq_true_2; [done|].
      by apply H, list_elem_of_In. }
    simpl. rewrite !Hall by (simpl; auto). reflexivity.
Qed.

(** X21. Without hires keys there is no upscale: with [upscale] set,
    [apply_upscale_toggle] raises [KeyError] exactly when one of [hr_scale],
    [hr_upscaler], [hr_second_pass_steps] is missing from the template, and
    then the template is left as it was. *)
Theorem apply_upscale_toggle_missing_keys (tpl : gmap string json) :
  (∃ k, k ∈ hires_keys ∧ tpl !! k = None) ↔
  ∃ arg, apply_upscale_toggle tpl true = (Some (KeyError arg), tpl).
Proof.
  unfold apply_upscale_toggle.
  destruct (List.filter _ hires_keys) as [|k0 rest] eqn:E.
  - pose proof (proj1 (missing_nil tpl) E) as Hall. split.
    + intros (k & Hk & Hnone). destruct (Hall k Hk) as [v Hv]. congruence.
    + intros (arg & H).
      destruct (default JNull (<["enable_hr":=JBool true]> tpl !! _))
        as [| | | |s|l|]; try discriminate H.
      destruct (forallb is_str l); discriminate H.
  - split; [eauto|]. intros _.
    assert (Hin : In k0 (List.filter
      (λ k, negb (bool_decide (is_Some (tpl !! k)))) hires_keys))
      by (rewrite E; by left).
    apply filter_In in Hin as [Hk Hno]. exists k0.
    split; [by apply list_elem_of_In|].
    apply negb_true_iff, bool_decide_eq_false in Hno.
    destruct (tpl !! k0); [|done]. by destruct Hno.
Qed.

(** X22. When [apply_upscale_toggle] succeeds, [enable_hr] is the flag that
    was asked for and every key besides [enable_hr] and
    [hr_additional_modules] is untouched; with [upscale] set, the three
    hires keys are present and [hr_additional_modules] is a list of texts. *)
Theorem apply_upscale_toggle_success tpl upscale tpl' :
  apply_upscale_toggle tpl upscale = (None, tpl') →
  tpl' !! "enable_hr" = Some (JBool upscale) ∧
  (∀ k, k ≠ "enable_hr" → k ≠ "hr_additional_modules" →
        tpl' !! k = tpl !! k) ∧
  (upscale = true →
   (∀ k, k ∈ hires_keys → is_Some (tpl' !! k)) ∧
   ∃ l, tpl' !! "hr_additional_modules" = Some (JList l) ∧
        forallb is_str l = true) ∧
  (upscale = false →
   tpl' !! "hr_additional_modules" = tpl !! "hr_additional_modules").
Proof.
  unfold apply_upscale_toggle. destruct upscale.
  - destruct (List.filter _ hires_keys) as [|k0 rest] eqn:E; [|done].
    pose proof (proj1 (missing_nil tpl) E) as Hall.
    assert (Hkeys : ∀ k, k ∈ hires_keys →
              k ≠ "enable_hr" ∧ k ≠ "hr_additional_modules").
    { intros k Hk. unfold hires_keys in Hk.
      repeat (apply elem_of_cons in Hk as [->|Hk]; [done|]).
      by apply elem_of_nil in Hk. }
    destruct (default JNull (<["enable_hr":=JBool true]> tpl !! _))
      as [| | | |s|l|] eqn:Eham; try done.
    + intros [= <-]. split; [by rewrite lookup_insert_ne, lookup_insert_eq|].
      split; [intros k H1 H2; by rewrite !lookup_insert_ne|].
      split; [|done]. intros _. split.
      * intros k Hk. destruct (Hkeys k Hk).
        rewrite !lookup_insert_ne by done. by apply Hall.
      * eexists. split; [apply lookup_insert_eq|reflexivity].
    + intros [= <-]. split; [by rewrite lookup_insert_ne, lookup_insert_eq|].
      split; [intros k H1 H2; by rewrite !lookup_insert_ne|].
      split; [|done]. intros _. split.
      * intros k Hk. destruct (Hkeys k Hk).
        rewrite !lookup_insert_ne by done. by apply Hall.
      * eexists. split; [apply lookup_insert_eq|reflexivity].
    + destruct (forallb is_str l) eqn:El; [|done].
      intros [= <-]. split; [apply lookup_insert_eq|].
      split; [intros k H1 H2; by rewrite lookup_insert_ne|].
      split; [|done]. intros _. split.
      * intros k Hk. destruct (Hkeys k Hk).
        rewrite lookup_insert_ne by done. by apply Hall.
      * exists l. split; [|done].
        destruct (<["enable_hr":=JBool true]> tpl !! "hr_additional_modules")
          eqn:E'; simpl in Eham; by subst.
  - intros [= <-]. split; [apply lookup_insert_eq|].
    split; [intros k H1 H2; by rewrite lookup_insert_ne|].
    split; [done|]. intros _. by rewrite lookup_insert_ne.
Qed.

(** X23. [apply_upscale_toggle] is idempotent on success: applying it again
    with the same flag to the template it produced succeeds and changes
    nothing. *)
Theorem apply_upscale_toggle_idempotent tpl upscale tpl' :
  apply_upscale_toggle tpl upscale = (None, tpl') →
  apply_upscale_toggle tpl' upscale = (None, tpl').
Proof.
  intros H.
  destruct (apply_upscale_toggle_success tpl upscale tpl' H)
    as (Hen & _ & Hon & _).
  destruct upscale.
  - destruct (Hon eq_refl) as (Hkeys & l & Hl & Hstr).
    unfold apply_upscale_toggle.
    rewrite (proj2 (missing_nil tpl') Hkeys).
    rewrite (insert_id tpl' "enable_hr" _ Hen), Hl. simpl. by rewrite Hstr.
  - unfold apply_upscale_toggle. by rewrite (insert_id tpl' "enable_hr" _ Hen).
Qed.


End ClientToggles.

(** ** The further properties at concrete inputs *)

Section MoreRuns.

Import Examples Runs SdT2i.

Lemma _env_int_reads_digits_witness :
  _env_int env_padded 4300 "ECLIA_EMBEDDINGS_PORT" 8789 = 9000.
Proof.
  apply (proj1 (_env_int_reads_digits env_padded 4300 "ECLIA_EMBEDDINGS_PORT"
                  8789 " 9000 " [9; 0; 0; 0]%nat eq_refl
                  ltac:(discriminate)
                  ltac:(repeat constructor; lia)
                  ltac:(right; simpl; lia))).
  reflexivity.
Defined.

Lemma _env_int_falls_back_witness :
  _env_int env_bad_port 4300 "ECLIA_EMBEDDINGS_PORT" 8789 = 8789 ∧
  _env_int env_default 4300 "ECLIA_EMBEDDINGS_PORT" 8789 = 8789.
Proof.
  split.
  - apply (proj1 (proj2 (proj2 (_env_int_falls_back env_bad_port 4300
                                  "ECLIA_EMBEDDINGS_PORT" 8789)))
             "8789/tcp" "/"%char); [reflexivity| |reflexivity].
    repeat split; discriminate.
  - apply (proj1 (_env_int_falls_back env_default 4300
                    "ECLIA_EMBEDDINGS_PORT" 8789)).
    reflexivity.
Defined.

Lemma started_reachable : reachable env_bge load_bge no_fault started.
Proof. apply (reach_startup _ _ _ disk_two). reflexivity. Qed.

Lemma started_deleted_reachable :
  reachable env_bge load_bge no_fault started_deleted.
Proof.
  change started_deleted with
    (serve env_bge load_bge no_fault
       (PostModelDelete {| name := "BAAI/bge-m3" |}) started).2.
  apply reach_serve, started_reachable.
Qed.

Lemma unloaded_has_dimension_zero_witness :
  (_model (globals started_deleted) = None → _DIM (globals started_deleted) = 0) ∧
  ∃ loaded dim,
    health env_bge 1700000000000 started_deleted =
    (Returns [("ok", VBool true); ("service", VStr "embeddings");
              ("model", VStr (MODEL_NAME env_bge)); ("dim", VInt dim);
              ("model_loaded", VBool loaded); ("ts", VInt 1700000000000)],
     started_deleted) ∧
    (loaded = false → dim = 0).
Proof.
  exact (unloaded_has_dimension_zero env_bge load_bge no_fault started_deleted
           1700000000000 started_deleted_reachable).
Defined.

Lemma active_handle_is_configured_model_witness :
  ∃ d d', load_bge (MODEL_NAME env_bge) d = (Returns bge, d').
Proof.
  exact (active_handle_is_configured_model env_bge load_bge no_fault started bge
           started_reachable eq_refl).
Defined.

Lemma stored_dimension_matches_handle_witness :
  get_sentence_embedding_dimension bge = Some (_DIM (globals started)).
Proof.
  apply (stored_dimension_matches_handle env_bge load_bge no_fault started bge);
    [|exact started_reachable|reflexivity].
  intros n d m' d' [= <- _]. discriminate.
Defined.

Lemma download_configured_then_health_witness :
  (model_download env_bge load_bge {| name := " BAAI/bge-m3 " |}
     (unloaded disk_two)).2 = started ∧
  health env_bge 1700000000000
    (model_download env_bge load_bge {| name := " BAAI/bge-m3 " |}
       (unloaded disk_two)).2 =
  (Returns [("ok", VBool true); ("service", VStr "embeddings");
            ("model", VStr (MODEL_NAME env_bge)); ("dim", VInt 1024);
            ("model_loaded", VBool true); ("ts", VInt 1700000000000)],
   (model_download env_bge load_bge {| name := " BAAI/bge-m3 " |}
      (unloaded disk_two)).2) ∧
  embed env_bge {| texts := []; normalize := true |}
    (model_download env_bge load_bge {| name := " BAAI/bge-m3 " |}
       (unloaded disk_two)).2 =
  (Returns [("ok", VBool true); ("model", VStr (MODEL_NAME env_bge));
            ("dim", VInt 1024); ("embeddings", VVecs [])],
   (model_download env_bge load_bge {| name := " BAAI/bge-m3 " |}
      (unloaded disk_two)).2).
Proof.
  exact (download_configured_then_health env_bge load_bge
           {| name := " BAAI/bge-m3 " |} (unloaded disk_two) bge 1024 disk_two
           1700000000000 true eq_refl eq_refl eq_refl).
Defined.

Lemma download_dimension_failure_observed_witness :
  globals (model_download env_default load_encoder_without_dimension
             {| name := "all-MiniLM-L6-v2" |} (loaded empty_hub)).2 =
    {| _model := Some encoder_without_dimension; _DIM := 384 |} ∧
  (embed env_default {| texts := ["hi"]; normalize := true |}
     (model_download env_default load_encoder_without_dimension
        {| name := "all-MiniLM-L6-v2" |} (loaded empty_hub)).2).1 =
    Returns [("ok", VBool true); ("model", VStr "all-MiniLM-L6-v2");
             ("dim", VInt 2);
             ("embeddings", VVecs [[float_one; float_zero]])].
Proof.
  pose proof (download_dimension_failure_observed env_default
                load_encoder_without_dimension
                {| name := "all-MiniLM-L6-v2" |} (loaded empty_hub)
                encoder_without_dimension empty_hub 0
                {| texts := ["hi"]; normalize := true |} vecs_1x2
                eq_refl eq_refl eq_refl ltac:(discriminate) eq_refl)
    as (_ & Hg & _ & He).
  split; [exact Hg|exact He].
Defined.

Lemma delete_other_name_unobservable_witness :
  globals (model_delete env_bge permission_denied
             {| name := "all-MiniLM-L6-v2" |} started).2 = globals started ∧
  (health env_bge 0 (model_delete env_bge permission_denied
                       {| name := "all-MiniLM-L6-v2" |} started).2).1 =
    (health env_bge 0 started).1 ∧
  (embed env_bge {| texts := ["hi"]; normalize := true |}
     (model_delete env_bge permission_denied
        {| name := "all-MiniLM-L6-v2" |} started).2).1 =
    (embed env_bge {| texts := ["hi"]; normalize := true |} started).1.
Proof.
  exact (delete_other_name_unobservable env_bge permission_denied
           {| name := "all-MiniLM-L6-v2" |} started 0
           {| texts := ["hi"]; normalize := true |} ltac:(discriminate)).
Defined.

Lemma delete_bge_run :
  model_delete env_bge no_fault {| name := "BAAI/bge-m3" |} started =
  (Returns (deleted "BAAI/bge-m3"), started_deleted).
Proof. vm_compute. reflexivity. Qed.

Lemma delete_then_status_qualified_witness :
  model_status env_bge "BAAI/bge-m3" started_deleted =
  (Returns [("ok", VBool true); ("model", VStr "BAAI/bge-m3");
            ("cached", VBool false)], started_deleted).
Proof.
  exact (delete_then_status_qualified env_bge no_fault
           {| name := "BAAI/bge-m3" |} started (deleted "BAAI/bge-m3")
           started_deleted eq_refl delete_bge_run eq_refl).
Defined.

Lemma model_delete_idempotent_witness :
  model_delete env_bge no_fault {| name := "BAAI/bge-m3" |} started_deleted =
  (Returns (deleted "BAAI/bge-m3"), started_deleted).
Proof.
  exact (model_delete_idempotent env_bge no_fault {| name := "BAAI/bge-m3" |}
           started (deleted "BAAI/bge-m3") started_deleted
           delete_bge_run eq_refl).
Defined.

Lemma resolved_cache_root : resolved (_hf_cache_dir env_bge).
Proof.
  exists ["home"; "eclia"; ".cache"; "huggingface"; "hub"].
  split; [reflexivity|]. repeat constructor; discriminate.
Qed.

Lemma model_delete_confined_witness :
  lookup_path (disk started_deleted) ["/"; "home"; "eclia"; "notes.txt"] =
  lookup_path (disk started) ["/"; "home"; "eclia"; "notes.txt"] ∧
  lookup_path (disk started_deleted)
    (_model_cache_path env_bge "sentence-transformers/all-MiniLM-L6-v2") =
  lookup_path (disk started)
    (_model_cache_path env_bge "sentence-transformers/all-MiniLM-L6-v2").
Proof.
  split.
  - apply (model_delete_confined env_bge no_fault {| name := "BAAI/bge-m3" |}
             started (deleted "BAAI/bge-m3") started_deleted _
             resolved_cache_root); [|exact delete_bge_run|reflexivity|].
    + exists ["home"; "eclia"; "notes.txt"].
      split; [reflexivity|]. repeat constructor; discriminate.
    + right. reflexivity.
  - apply (model_delete_confined env_bge no_fault {| name := "BAAI/bge-m3" |}
             started (deleted "BAAI/bge-m3") started_deleted _
             resolved_cache_root); [|exact delete_bge_run|reflexivity|].
    + exists ["home"; "eclia"; ".cache"; "huggingface"; "hub";
              "models--sentence-transformers--all-MiniLM-L6-v2"].
      split; [reflexivity|]. repeat constructor; discriminate.
    + left. reflexivity.
Defined.

Lemma model_delete_keeps_other_models_witness :
  _is_model_cached env_bge (disk started_deleted) "all-MiniLM-L6-v2" =
  _is_model_cached env_bge (disk started) "all-MiniLM-L6-v2".
Proof.
  apply (model_delete_keeps_other_models env_bge no_fault
           {| name := "BAAI/bge-m3" |} started (deleted "BAAI/bge-m3")
           started_deleted "all-MiniLM-L6-v2" delete_bge_run eq_refl);
    discriminate.
Defined.



Lemma apply_upscale_toggle_success_witness :
  (apply_upscale_toggle template true).2 !! "enable_hr" = Some (JBool true) ∧
  ∃ l, (apply_upscale_toggle template true).2 !! "hr_additional_modules" =
         Some (JList l) ∧ forallb is_str l = true.
Proof.
  pose proof (apply_upscale_toggle_success template true
                (apply_upscale_toggle template true).2 eq_refl)
    as (H1 & _ & H3 & _).
  split; [exact H1|]. exact (proj2 (H3 eq_refl)).
Defined.

Lemma apply_upscale_toggle_idempotent_witness :
  apply_upscale_toggle (apply_upscale_toggle template true).2 true =
  (None, (apply_upscale_toggle template true).2).
Proof.
  exact (apply_upscale_toggle_idempotent template true
           (apply_upscale_toggle template true).2 eq_refl).
Defined.

End MoreRuns.

(** ** The inspector and the manager on a file system that can refuse *)

Section Refusals.

Variable env : Env.
Variable stat_fault scandir_fault : Path → node → option string.
Variable SentenceTransformer : string → node → outcome Model * node.
Variable rmtree_fault : Path → node → option (string * node).





Lemma posix_model_status_run raw w :
  Posix.model_status env stat_fault scandir_fault raw w =
  match Posix._is_model_cached env stat_fault scandir_fault (disk w)
          (Str.strip raw) with
  | Returns cached =>
      (Returns [("ok", VBool true); ("model", VStr (Str.strip raw));
                ("cached", VBool cached)], w)
  | Raises e => (Raises e, w)
  end.
Proof.
  unfold Posix.model_status. run.
  by destruct (Posix._is_model_cached _ _ _ _ _).
Qed.

Lemma posix_model_delete_empty_name req w :
  Str.strip (name req) = "" →
  Posix.model_delete env stat_fault rmtree_fault req w =
  (Returns name_required, w).
Proof. intros H. unfold Posix.model_delete. by rewrite H. Qed.

(** C10 (as amended). [model_status] has no failure answer: whenever it
    returns, it returns [ok=true] with the stripped name and the inspector's
    verdict and changes nothing, also for a name that strips to the empty
    string, which [model_download] and [model_delete] refuse with "name is
    required". It returns whenever the inspector does; when a query of the
    inspector raises, nothing catches the exception and [model_status]
    raises it. *)
Theorem model_status_answers_or_raises raw w :
  (∀ cached,
     Posix._is_model_cached env stat_fault scandir_fault (disk w)
       (Str.strip raw) = Returns cached →
     Posix.model_status env stat_fault scandir_fault raw w =
     (Returns [("ok", VBool true); ("model", VStr (Str.strip raw));
               ("cached", VBool cached)], w)) ∧
  (∀ e,
     Posix._is_model_cached env stat_fault scandir_fault (disk w)
       (Str.strip raw) = Raises e →
     Posix.model_status env stat_fault scandir_fault raw w = (Raises e, w)) ∧
  (∀ r w',
     Posix.model_status env stat_fault scandir_fault raw w = (Returns r, w') →
     get r "ok" = Some (VBool true) ∧ w' = w) ∧
  (Str.strip raw = "" →
   (∀ cached,
      Posix._is_model_cached env stat_fault scandir_fault (disk w) "" =
        Returns cached →
      Posix.model_status env stat_fault scandir_fault raw w =
      (Returns [("ok", VBool true); ("model", VStr "");
                ("cached", VBool cached)], w)) ∧
   model_download env SentenceTransformer {| name := raw |} w =
   (Returns [("ok", VBool false); ("error", VStr "name is required")], w) ∧
   Posix.model_delete env stat_fault rmtree_fault {| name := raw |} w =
   (Returns [("ok", VBool false); ("error", VStr "name is required")], w)).
Proof.
  split; [|split; [|split]].
  - intros cached H. by rewrite posix_model_status_run, H.
  - intros e H. by rewrite posix_model_status_run, H.
  - intros r w'. rewrite posix_model_status_run.
    destruct (Posix._is_model_cached _ _ _ _ _); [|done].
    by intros [= <- <-].
  - intros Hraw. split; [|split].
    + intros cached H. by rewrite posix_model_status_run, Hraw, H.
    + by apply model_download_empty_name.
    + by apply posix_model_delete_empty_name.
Qed.

(** When the [is_dir] query raises, [model_delete] answers [ok=false] with
    the error and changes nothing. *)
Lemma posix_model_delete_refused req w e :
  Str.strip (name req) ≠ "" →
  stat_fault (_model_cache_path env (Str.strip (name req))) (disk w) = Some e →
  Posix.model_delete env stat_fault rmtree_fault req w =
  (Returns [("ok", VBool false); ("model", VStr (Str.strip (name req)));
            ("error", VStr e)], w).
Proof.
  intros Hne Hstat. unfold Posix.model_delete, Posix.is_dir.
  apply truthy_true in Hne. rewrite Hne. run. rewrite Hstat. by destruct w.
Qed.

(** When the query is answered, [model_delete] is the handler of the
    answering file system. *)
Lemma posix_model_delete_answered req w :
  stat_fault (_model_cache_path env (Str.strip (name req))) (disk w) = None →
  Posix.model_delete env stat_fault rmtree_fault req w =
  model_delete env rmtree_fault req w.
Proof.
  intros Hstat. unfold Posix.model_delete, Posix.is_dir, model_delete.
  destruct (negb _); [reflexivity|]. run. by rewrite Hstat.
Qed.

End Refusals.

Section RefusalRuns.

Import Examples Runs.



(** The same for a name too long on the fallback path only. *)
Example is_cached_raises_on_long_fallback :
  Posix._is_model_cached env_default name_too_long no_refusal empty_hub
    name_230 = Raises "[Errno 36] File name too long".
Proof. vm_compute. reflexivity. Qed.

Lemma model_status_answers_or_raises_witness :
  Posix.model_status env_default no_refusal no_refusal "  "
    (loaded disk_short_name) =
    (Returns [("ok", VBool true); ("model", VStr ""); ("cached", VBool false)],
     loaded disk_short_name) ∧
  Posix.model_status env_default name_too_long no_refusal name_300
    (loaded disk_short_name) =
    (Raises "[Errno 36] File name too long", loaded disk_short_name).
Proof.
  split.
  - apply (proj1 (model_status_answers_or_raises env_default no_refusal
                    no_refusal load_bge no_fault "  " (loaded disk_short_name))).
    reflexivity.
  - apply (proj1 (proj2 (model_status_answers_or_raises env_default
                           name_too_long no_refusal load_bge no_fault name_300
                           (loaded disk_short_name)))).
    vm_compute. reflexivity.
Defined.

(** C10, as worded: a name of 300 characters is accepted by the route; the
    inspector's [is_dir] query raises and [model_status] answers nothing.
    Nor does it answer for a cached model whose [snapshots] directory cannot
    be listed. *)
Lemma model_status_raises_on_long_name :
  ¬ status_answers env_default name_too_long no_refusal name_300
      (loaded disk_short_name) ∧
  ¬ status_answers env_bge no_refusal unreadable "BAAI/bge-m3"
      (loaded disk_bge).
Proof. split; intros [cached H]; vm_compute in H; discriminate H. Qed.


(** C3 on the code: the configured name is downloaded and the new handle
    reports no dimension; the download answers [ok=false] and leaves the new
    handle in the registry next to the old dimension. *)
Lemma model_download_leaves_half_updated_registry :
  model_download env_default load_no_dimension
    {| name := "all-MiniLM-L6-v2" |} (loaded empty_hub) =
  (Returns [("ok", VBool false); ("model", VStr "all-MiniLM-L6-v2");
            ("error",
             VStr "int() argument must be a string, a bytes-like object or a real number, not 'NoneType'")],
   {| globals := {| _model := Some no_dimension; _DIM := 384 |};
      disk := empty_hub |}) ∧
  globals (loaded empty_hub) = {| _model := Some minilm; _DIM := 384 |}.
Proof. split; reflexivity. Qed.

End RefusalRuns.
